(** * ZenoCoin impact projection engine

    A shallow embedding of [advanced_impact_calculator.py]
    (class [AdvancedImpactCalculator]) and the properties of
    [calculate_impact] and its helpers.

    Number model.  Python [float]s and numpy [float64]s are embedded as
    real numbers with exact arithmetic, [np.exp] as the real exponential;
    binary64 rounding error is not modelled.  Python [int]s are [Z].
    [float('inf')] gets a constructor of its own in the type of dictionary
    values.  The results dictionary is a [gmap string value].

    Non-finite floats are outside this model, and with them the
    [OverflowError] of an [int] too large for a double or of [int(inf)]
    and the [ValueError] of [int(nan)]: statements that a call raises
    nothing are made for arguments of bounded size, where every
    intermediate value is finite. *)

From Stdlib Require Import Reals Lra ZArith List.
From stdpp Require Import gmap strings.
Import ListNotations.

Local Open Scope R_scope.

(** ** Python primitives *)

Module Py.

(** Exceptions the arithmetic of the module can raise. *)
Inductive exn : Set :=
| ZeroDivisionError.

Inductive result (A : Type) : Type :=
| Ok (a : A)
| Raise (e : exn).
Arguments Ok {A} a.
Arguments Raise {A} e.

Definition bind {A B : Type} (m : result A) (k : A -> result B) : result B :=
  match m with
  | Ok a => k a
  | Raise e => Raise e
  end.

(** [x / y] on Python floats: a zero divisor raises. *)
Definition truediv (x y : R) : result R :=
  if Req_dec_T y 0 then Raise ZeroDivisionError else Ok (x / y).

(** [math.floor]. *)
Definition floor (x : R) : Z := (up x - 1)%Z.

(** [int(x)] on a float: truncation toward zero. *)
Definition int (x : R) : Z :=
  if Rle_dec 0 x then floor x else (- floor (- x))%Z.

(** Nearest integer, ties to the even one. *)
Definition rint (y : R) : Z :=
  let f := floor y in
  let d := y - IZR f in
  if Rlt_dec d (1 / 2) then f
  else if Rlt_dec (1 / 2) d then (f + 1)%Z
  else if Z.even f then f else (f + 1)%Z.

(** [round(x, ndigits)] on a float. *)
Definition round (x : R) (ndigits : nat) : R :=
  IZR (rint (x * 10 ^ ndigits)) / 10 ^ ndigits.

End Py.

#[global] Instance result_ret : MRet Py.result := fun _ a => Py.Ok a.
#[global] Instance result_bind : MBind Py.result := fun _ _ k m => Py.bind m k.

(** Values stored in the results dictionary. *)
Inductive value : Type :=
| VInt (z : Z)
| VFloat (r : R)
| VInf.

(** ** Construction of the calculator *)

(** What [__init__] reads from the CSV files, reduced to the aggregates
    the constructor derives from them.  The [avg_frequency] column is
    taken to be present and without missing cells. *)
Record History : Type := {
  zc_avg_frequency : list R;
    (* customer_lifetime['avg_frequency'] of the rows with is_zc_user == 1 *)
  non_zc_avg_frequency : list R;
    (* the same column for is_zc_user == 0 *)
  monthly_trends_len : nat;
    (* len(monthly_trends) *)
  loglog_slope : R;
    (* slope of stats.linregress over the log-transformed trend columns *)
  monthly_data_len : nat
    (* number of rows of monthly_data, one feature vector each *)
}.

(** What the randomised fitting of [_build_predictive_models] produces:
    the forest fitted on the training split and the mean standard
    deviation of the 100 bootstrap predictions.  Both depend on
    [np.random]. *)
Record Fit : Type := {
  fitted_model : list R -> R;
  bootstrap_std : R
}.

Record AdvancedImpactCalculator : Type := {
  data : History;
  (* _calculate_baseline_metrics *)
  current_redemption_rate : R;
  current_avg_monthly_spend_zc : Z;
  current_avg_monthly_spend_non_zc : Z;
  spend_lift_per_user : Z;
  retention_7d_zc : R;
  retention_30d_zc : R;
  retention_7d_non_zc : R;
  retention_30d_non_zc : R;
  avg_freq_zc : R;
  avg_freq_non_zc : R;
  (* _calculate_elasticity *)
  discount_elasticity : R;
  network_effect : R;
  saturation_point : R;
  adoption_speed : R;
  (* _build_predictive_models *)
  spend_model : option (list R -> R);
  prediction_std : R
}.

(** [Series.mean()]. *)
Definition mean (l : list R) : R :=
  fold_right Rplus 0 l / INR (length l).

(** [AdvancedImpactCalculator.__init__], with the three initialisation
    steps it calls written out field by field. *)
Definition init (h : History) (fit : Fit) : AdvancedImpactCalculator :=
  {| data := h;
     current_redemption_rate := 21;
     current_avg_monthly_spend_zc := 1088;
     current_avg_monthly_spend_non_zc := 624;
     spend_lift_per_user := 464;
     retention_7d_zc := 248 / 10;
     retention_30d_zc := 675 / 10;
     retention_7d_non_zc := 228 / 10;
     retention_30d_non_zc := 605 / 10;
     avg_freq_zc :=
       if (0 <? length (zc_avg_frequency h))%nat
       then mean (zc_avg_frequency h) else 73 / 10;
     avg_freq_non_zc :=
       if (0 <? length (non_zc_avg_frequency h))%nat
       then mean (non_zc_avg_frequency h) else 4;
     discount_elasticity :=
       if (1 <? monthly_trends_len h)%nat then loglog_slope h else - (3 / 10);
     network_effect := 15 / 100;
     saturation_point := 45 / 100;
     adoption_speed := 8 / 10;
     spend_model :=
       if (10 <? monthly_data_len h)%nat then Some (fitted_model fit) else None;
     prediction_std :=
       if (10 <? monthly_data_len h)%nat then bootstrap_std fit else 100
  |}.

(** ** Helper methods *)

Section Methods.

Variable self : AdvancedImpactCalculator.

(** [_apply_adoption_curve] *)
Definition _apply_adoption_curve (target_rate : R) : R :=
  let x := target_rate * 10 - 5 in
  let adoption := saturation_point self / (1 + exp (- adoption_speed self * x)) in
  Rmin adoption target_rate.

(** [_calculate_incrementality] *)
Definition _calculate_incrementality (usage_rate : R) : R :=
  let base_incrementality := 75 / 100 in
  let cannibalization_factor := usage_rate * (3 / 10) in
  Rmax (4 / 10) (base_incrementality - cannibalization_factor).

(** [_monthly_growth_curve] *)
Definition _monthly_growth_curve (month_index : nat) (target_rate : R) : R :=
  let max_months := 12%nat in
  let growth_rate :=
    target_rate / (1 + exp (- (8 / 10) * (INR month_index - 6))) in
  Rmin growth_rate target_rate.

(** [_calculate_risk_factor] *)
Definition _calculate_risk_factor (usage_rate : R) : R :=
  let execution_risk := Rmin (3 / 10) (usage_rate * (5 / 10)) in
  let market_risk := 1 / 10 in
  let total_risk := execution_risk + market_risk - execution_risk * market_risk in
  total_risk.

End Methods.

(** [stats.norm.ppf((1 + 0.95) / 2)]: the double scipy returns for the
    0.975 quantile of the standard normal distribution. *)
Definition z_score : R := 1959963984540054 / 1000000000000000.

(** [sum(xs)]: left to right from 0. *)
Definition sum (xs : list R) : R := fold_left Rplus xs 0.

(** ** [calculate_impact] *)

Definition calculate_impact (self : AdvancedImpactCalculator)
    (target_usage_percent : R) (total_monthly_customers : Z)
    : Py.result (gmap string value) :=
  let results : gmap string value := ∅ in
  let current_usage_percent := 21 in
  let effective_rate := _apply_adoption_curve self (target_usage_percent / 100) in
  let current_rate := current_usage_percent / 100 in
  (* 1. user metrics *)
  let eligible_customers := IZR total_monthly_customers * (8 / 10) in
  let current_coin_users := eligible_customers * current_rate in
  let target_coin_users := eligible_customers * effective_rate in
  let incremental_coin_users := target_coin_users - current_coin_users in
  let results := <["current_coin_users" := VInt (Py.int current_coin_users)]> results in
  let results := <["target_coin_users" := VInt (Py.int target_coin_users)]> results in
  let results := <["new_coin_users" := VInt (Py.int incremental_coin_users)]> results in
  (* 2. spending patterns *)
  let base_spend := current_avg_monthly_spend_non_zc self in
  q ← Py.truediv (IZR (spend_lift_per_user self)) (IZR base_spend);
  let lift_factor := 1 + q in
  let avg_monthly_per_user := current_avg_monthly_spend_zc self in
  (* round(n, 2) of an int is that int *)
  let results := <["avg_monthly_amount_per_user" := VInt avg_monthly_per_user]> results in
  (* 3. incremental revenue *)
  let incrementality_rate := _calculate_incrementality effective_rate in
  let incremental_spend_per_user := IZR (spend_lift_per_user self) * incrementality_rate in
  let monthly_incremental_revenue :=
    if Rgt_dec incremental_coin_users 0
    then incremental_coin_users * incremental_spend_per_user
    else incremental_coin_users * incremental_spend_per_user in
  let results :=
    <["incremental_revenue_monthly" := VFloat (Py.round monthly_incremental_revenue 2)]> results in
  (* 4. costs *)
  let avg_discount_per_redemption := 30 in
  let avg_redemptions_per_user := avg_freq_zc self in
  let volume_discount := 1 - (1 / 10) * Rmin effective_rate (5 / 10) in
  let total_monthly_cost :=
    target_coin_users * avg_discount_per_redemption * avg_redemptions_per_user * volume_discount in
  let monthly_cost :=
    if Rgt_dec incremental_coin_users 0
    then incremental_coin_users * avg_discount_per_redemption * avg_redemptions_per_user * volume_discount
    else incremental_coin_users * avg_discount_per_redemption * avg_redemptions_per_user * volume_discount in
  let results := <["monthly_cost" := VFloat (Py.round monthly_cost 2)]> results in
  let results := <["total_monthly_cost" := VFloat (Py.round total_monthly_cost 2)]> results in
  (* 5. net monthly impact *)
  let net_monthly_impact := monthly_incremental_revenue - monthly_cost in
  let results := <["net_monthly_impact" := VFloat (Py.round net_monthly_impact 2)]> results in
  (* 6. annual impact over the growth curve *)
  let monthly_impacts :=
    map (fun month =>
           let month_rate := _monthly_growth_curve month effective_rate in
           let month_users := eligible_customers * month_rate in
           let month_revenue := month_users * incremental_spend_per_user in
           let month_cost :=
             month_users * avg_discount_per_redemption * avg_redemptions_per_user * volume_discount in
           month_revenue - month_cost)
        (seq 0 12) in
  let annual_impact := sum monthly_impacts in
  let results := <["annual_impact" := VFloat (Py.round annual_impact 2)]> results in
  (* 7. additional metrics *)
  roi ← (if Rgt_dec monthly_cost 0
         then q ← Py.truediv annual_impact (monthly_cost * 12);
              mret (VFloat (Py.round (q * 100) 2))
         else mret (VInt 0));
  let results := <["roi_percentage" := roi]> results in
  payback ← (if Rgt_dec net_monthly_impact 0
             then q ← Py.truediv monthly_cost net_monthly_impact;
                  mret (VFloat (Py.round q 1))
             else mret VInf);
  let results := <["payback_period_months" := payback]> results in
  let results :=
    <["customer_ltv_increase" := VFloat (Py.round (incremental_spend_per_user * (48 / 10)) 2)]> results in
  (* 8. confidence interval; z_score is norm.ppf((1 + 0.95) / 2) *)
  let revenue_std := monthly_incremental_revenue * (15 / 100) in
  let results :=
    <["revenue_confidence_lower" :=
        VFloat (Py.round (monthly_incremental_revenue - z_score * revenue_std) 2)]> results in
  let results :=
    <["revenue_confidence_upper" :=
        VFloat (Py.round (monthly_incremental_revenue + z_score * revenue_std) 2)]> results in
  (* 9. risk-adjusted metrics *)
  let risk_factor := _calculate_risk_factor effective_rate in
  let results :=
    <["risk_adjusted_annual_impact" := VFloat (Py.round (annual_impact * (1 - risk_factor)) 2)]> results in
  let results := <["risk_score" := VFloat (Py.round (risk_factor * 100) 1)]> results in
  mret results.

(** ** The local variables of [calculate_impact]

    The same expressions as in the body above, one definition per local
    variable, so that statements can name them. *)

Section Locals.

Variable self : AdvancedImpactCalculator.
Variable target_usage_percent : R.
Variable total_monthly_customers : Z.

Definition effective_rate : R :=
  _apply_adoption_curve self (target_usage_percent / 100).

Definition current_rate : R := 21 / 100.

Definition eligible_customers : R := IZR total_monthly_customers * (8 / 10).

Definition current_coin_users : R := eligible_customers * current_rate.

Definition target_coin_users : R := eligible_customers * effective_rate.

Definition incremental_coin_users : R := target_coin_users - current_coin_users.

Definition incremental_spend_per_user : R :=
  IZR (spend_lift_per_user self) * _calculate_incrementality effective_rate.

Definition monthly_incremental_revenue : R :=
  if Rgt_dec incremental_coin_users 0
  then incremental_coin_users * incremental_spend_per_user
  else incremental_coin_users * incremental_spend_per_user.

Definition volume_discount : R := 1 - (1 / 10) * Rmin effective_rate (5 / 10).

Definition total_monthly_cost : R :=
  target_coin_users * 30 * avg_freq_zc self * volume_discount.

Definition monthly_cost : R :=
  if Rgt_dec incremental_coin_users 0
  then incremental_coin_users * 30 * avg_freq_zc self * volume_discount
  else incremental_coin_users * 30 * avg_freq_zc self * volume_discount.

Definition net_monthly_impact : R := monthly_incremental_revenue - monthly_cost.

Definition month_impact (month : nat) : R :=
  let month_rate := _monthly_growth_curve month effective_rate in
  let month_users := eligible_customers * month_rate in
  let month_revenue := month_users * incremental_spend_per_user in
  let month_cost := month_users * 30 * avg_freq_zc self * volume_discount in
  month_revenue - month_cost.

Definition annual_impact : R := sum (map month_impact (seq 0 12)).

Definition revenue_std : R := monthly_incremental_revenue * (15 / 100).

Definition risk_factor : R := _calculate_risk_factor effective_rate.

(** The value stored under ["roi_percentage"]. *)
Definition roi_value : value :=
  if Rgt_dec monthly_cost 0
  then VFloat (Py.round (annual_impact / (monthly_cost * 12) * 100) 2)
  else VInt 0.

(** The value stored under ["payback_period_months"]. *)
Definition payback_value : value :=
  if Rgt_dec net_monthly_impact 0
  then VFloat (Py.round (monthly_cost / net_monthly_impact) 1)
  else VInf.

(** The dictionary a completed call returns. *)
Definition results_of (roi payback : value) : gmap string value :=
  <["risk_score" := VFloat (Py.round (risk_factor * 100) 1)]>
  (<["risk_adjusted_annual_impact" := VFloat (Py.round (annual_impact * (1 - risk_factor)) 2)]>
  (<["revenue_confidence_upper" :=
       VFloat (Py.round (monthly_incremental_revenue + z_score * revenue_std) 2)]>
  (<["revenue_confidence_lower" :=
       VFloat (Py.round (monthly_incremental_revenue - z_score * revenue_std) 2)]>
  (<["customer_ltv_increase" := VFloat (Py.round (incremental_spend_per_user * (48 / 10)) 2)]>
  (<["payback_period_months" := payback]>
  (<["roi_percentage" := roi]>
  (<["annual_impact" := VFloat (Py.round annual_impact 2)]>
  (<["net_monthly_impact" := VFloat (Py.round net_monthly_impact 2)]>
  (<["total_monthly_cost" := VFloat (Py.round total_monthly_cost 2)]>
  (<["monthly_cost" := VFloat (Py.round monthly_cost 2)]>
  (<["incremental_revenue_monthly" := VFloat (Py.round monthly_incremental_revenue 2)]>
  (<["avg_monthly_amount_per_user" := VInt (current_avg_monthly_spend_zc self)]>
  (<["new_coin_users" := VInt (Py.int incremental_coin_users)]>
  (<["target_coin_users" := VInt (Py.int target_coin_users)]>
  (<["current_coin_users" := VInt (Py.int current_coin_users)]> ∅))))))))))))))).

End Locals.

(** The calculator of the documented scenario: no rows in the history
    files, so every data-derived field takes its fallback constant
    ([avg_freq_zc] = 7.3). *)
Definition no_history : History :=
  {| zc_avg_frequency := [];
     non_zc_avg_frequency := [];
     monthly_trends_len := 0;
     loglog_slope := 0;
     monthly_data_len := 0 |}.

Definition no_fit : Fit :=
  {| fitted_model := fun _ => 0; bootstrap_std := 0 |}.

Definition documented : AdvancedImpactCalculator := init no_history no_fit.

(** The keys of a complete result. *)
Definition result_keys : list string :=
  [ "current_coin_users"; "target_coin_users"; "new_coin_users";
    "avg_monthly_amount_per_user"; "incremental_revenue_monthly";
    "monthly_cost"; "total_monthly_cost"; "net_monthly_impact";
    "annual_impact"; "roi_percentage"; "payback_period_months";
    "customer_ltv_increase"; "revenue_confidence_lower";
    "revenue_confidence_upper"; "risk_adjusted_annual_impact"; "risk_score" ].

(** ** Method calls on the live object

    A method runs against the interpreter state it can reach: the
    calculator object bound to [self] and the global generator state of
    [np.random].  It returns an outcome and the state it leaves
    behind. *)

Section Calls.

(** The state of the [np.random] generator. *)
Variable RandomState : Type.

(** The randomised part of [_build_predictive_models]: the bootstrap
    loop draws from [np.random] ([np.random.choice],
    [np.random.randint]) and fits forests on the draws.  The forests
    are not modelled: the fitting is an arbitrary function of the data
    and the generator state, giving the fit and the generator state it
    leaves. *)
Variable fit_models : History -> RandomState -> Fit * RandomState.

Record World : Type := {
  self_obj : AdvancedImpactCalculator;
  np_random : RandomState
}.

Definition method (A : Type) : Type := World -> Py.result A * World.

Definition ret_method {A : Type} (a : A) : method A :=
  fun w => (Py.Ok a, w).

(** Sequencing: an exception stops the sequence and keeps the state
    reached so far. *)
Definition bind_method {A B : Type} (m : method A) (k : A -> method B) : method B :=
  fun w =>
    match m w with
    | (Py.Ok a, w') => k a w'
    | (Py.Raise e, w') => (Py.Raise e, w')
    end.

(** Evaluation of an expression that reads attributes of [self]. *)
Definition load {A : Type} (expr : AdvancedImpactCalculator -> Py.result A) : method A :=
  fun w => (expr (self_obj w), w).

(** Assignment to the attributes of [self]. *)
Definition store (attrs : AdvancedImpactCalculator) : method unit :=
  fun w => (Py.Ok tt, {| self_obj := attrs; np_random := np_random w |}).

(** The draws of the bootstrap loop. *)
Definition draw_fit (h : History) : method Fit :=
  fun w =>
    let '(fit, rng) := fit_models h (np_random w) in
    (Py.Ok fit, {| self_obj := self_obj w; np_random := rng |}).

(** [AdvancedImpactCalculator.__init__]: every attribute is assigned;
    the generator is used only when [monthly_data] has more than ten
    rows. *)
Definition __init__ (h : History) : method unit :=
  if (10 <? monthly_data_len h)%nat
  then bind_method (draw_fit h) (fun fit => store (init h fit))
  else store (init h no_fit).

(** [self.calculate_impact(target_usage_percent, total_monthly_customers)].
    The body and the four helpers it calls read attributes of [self];
    none assigns an attribute and none calls into [np.random]. *)
Definition calculate_impact_call (target_usage_percent : R)
    (total_monthly_customers : Z) : method (gmap string value) :=
  load (fun self => calculate_impact self target_usage_percent total_monthly_customers).

End Calls.

Arguments self_obj {RandomState} _.
Arguments np_random {RandomState} _.
Arguments load {RandomState A} _ _.
Arguments store {RandomState} _ _.
Arguments bind_method {RandomState A B} _ _ _.
Arguments ret_method {RandomState A} _ _.
Arguments draw_fit {RandomState} _ _ _.
Arguments __init__ {RandomState} _ _ _.
Arguments calculate_impact_call {RandomState} _ _ _.

(** ** The dashboard: [show_roi_calculator] of zenocoin_monthly_app.py

    The page either calls [calculate_impact] and draws two series from
    its result, or, when the calculator cannot be constructed, falls
    back to a simplified projection of its own. *)

(** Values of [st.slider(min_value=10, max_value=60, step=5)]. *)
Definition slider_targets : list Z :=
  map (fun k => (10 + 5 * Z.of_nat k)%Z) (seq 0 11).

(** A dictionary value used as a number in float arithmetic.  Infinity
    has no real counterpart. *)
Definition as_number (v : value) : option R :=
  match v with
  | VInt z => Some (IZR z)
  | VFloat r => Some r
  | VInf => None
  end.

(** The loop that fills [adoption_rates] and [monthly_impacts] for the
    two charts.  [None] stands for the [KeyError] of a missing
    ["avg_monthly_amount_per_user"]. *)
Definition chart_series (calculator : AdvancedImpactCalculator)
    (results : gmap string value) (target_usage total_customers : Z)
    : option (list R * list R) :=
  let months := seq 1 12 in
  fold_left
    (fun acc month =>
       '(adoption_rates, monthly_impacts) ← acc;
       let month_rate :=
         _monthly_growth_curve (month - 1) (IZR target_usage / 100) in
       let adoption_rates := adoption_rates ++ [month_rate * 100] in
       let month_users := IZR total_customers * (8 / 10) * month_rate in
       v ← results !! "avg_monthly_amount_per_user";
       a ← as_number v;
       let month_revenue := month_users * (a - 624) in
       Some (adoption_rates, monthly_impacts ++ [month_revenue]))
    months (Some ([], [])).

(** A figure of the fallback panel that may be shown as ["N/A"]. *)
Inductive shown : Type :=
| Number (r : R)
| NA.

(** The figures of the fallback branch. *)
Record SimpleProjection : Type := {
  sp_current_users : R;
  sp_target_users : R;
  sp_incremental_users : R;
  sp_incremental_revenue : R;
  sp_total_cost : R;
  sp_incremental_cost : R;
  sp_net_impact : R;
  sp_annual : R;
  sp_delta : shown;
  sp_roi : shown
}.

(** The [else] branch of [show_roi_calculator]: the simplified
    projection. *)
Definition simple_projection (target_usage total_customers : Z)
    : Py.result SimpleProjection :=
  let current_usage_rate := 21 in
  let eligible := IZR total_customers * (8 / 10) in
  let current_users := eligible * (current_usage_rate / 100) in
  let target_users := eligible * (IZR target_usage / 100) in
  let incremental_users := target_users - current_users in
  let avg_amount := 1088%Z in
  let avg_amount_non_zc := 624%Z in
  let spend_lift := (avg_amount - avg_amount_non_zc)%Z in
  let incremental_revenue := incremental_users * IZR spend_lift in
  let cost_per_user := (30 * 7)%Z in
  let total_cost := target_users * IZR cost_per_user in
  let incremental_cost :=
    if Rgt_dec incremental_users 0
    then incremental_users * IZR cost_per_user else 0 in
  let net_impact := incremental_revenue - incremental_cost in
  let annual := net_impact * 12 in
  delta ← (if Rgt_dec current_users 0
           then q ← Py.truediv incremental_users current_users;
                mret (Number (q * 100))
           else mret NA);
  roi ← (if Rgt_dec total_cost 0
         then q ← Py.truediv (Rabs annual) (total_cost * 12);
              mret (Number (q * 100))
         else mret NA);
  mret {| sp_current_users := current_users;
          sp_target_users := target_users;
          sp_incremental_users := incremental_users;
          sp_incremental_revenue := incremental_revenue;
          sp_total_cost := total_cost;
          sp_incremental_cost := incremental_cost;
          sp_net_impact := net_impact;
          sp_annual := annual;
          sp_delta := delta;
          sp_roi := roi |}.

(** * Properties *)

(** ** Python primitives *)

Lemma floor_spec (x : R) : IZR (Py.floor x) <= x < IZR (Py.floor x) + 1.
Proof.
  unfold Py.floor. rewrite minus_IZR.
  destruct (archimed x) as [Hgt Hle]. lra.
Qed.

Lemma floor_unique (x : R) (z : Z) : IZR z <= x < IZR z + 1 -> Py.floor x = z.
Proof.
  intros [Hlo Hhi]. destruct (floor_spec x) as [Flo Fhi].
  assert (H1 : (Py.floor x < z + 1)%Z).
  { apply lt_IZR. rewrite plus_IZR. lra. }
  assert (H2 : (z < Py.floor x + 1)%Z).
  { apply lt_IZR. rewrite plus_IZR. lra. }
  lia.
Qed.

Lemma floor_IZR (z : Z) : Py.floor (IZR z) = z.
Proof. apply floor_unique. lra. Qed.

Lemma int_IZR (z : Z) : Py.int (IZR z) = z.
Proof.
  unfold Py.int. destruct (Rle_dec 0 (IZR z)) as [H | H].
  - apply floor_IZR.
  - rewrite <- opp_IZR, floor_IZR. lia.
Qed.

Lemma int_nonneg_le (x : R) : 0 <= x -> 0 <= IZR (Py.int x) <= x.
Proof.
  intros Hx. unfold Py.int. destruct (Rle_dec 0 x) as [_ | H]; [| contradiction].
  destruct (floor_spec x) as [Flo Fhi]. split; [| exact Flo].
  apply IZR_le. assert (H : (-1 < Py.floor x)%Z); [| lia].
  apply lt_IZR. lra.
Qed.

Lemma int_nonpos (x : R) : x <= 0 -> IZR (Py.int x) <= 0.
Proof.
  intros Hx. unfold Py.int. destruct (Rle_dec 0 x) as [H | H].
  - assert (x = 0) by lra. subst x. rewrite floor_IZR. lra.
  - destruct (floor_spec (- x)) as [Flo Fhi]. rewrite opp_IZR.
    assert (Hz : (-1 < Py.floor (- x))%Z).
    { apply lt_IZR. lra. }
    assert (0 <= IZR (Py.floor (- x))); [apply IZR_le; lia | lra].
Qed.

Lemma rint_near (y : R) : y - 1 / 2 <= IZR (Py.rint y) <= y + 1 / 2.
Proof.
  unfold Py.rint. destruct (floor_spec y) as [Flo Fhi].
  repeat match goal with
         | |- context [Rlt_dec ?a ?b] => destruct (Rlt_dec a b)
         | |- context [Z.even ?a] => destruct (Z.even a)
         end; rewrite ?plus_IZR; lra.
Qed.

Lemma rint_IZR (z : Z) : Py.rint (IZR z) = z.
Proof.
  unfold Py.rint. rewrite floor_IZR.
  destruct (Rlt_dec (IZR z - IZR z) (1 / 2)) as [_ | H]; [reflexivity | lra].
Qed.

Lemma rint_mono (x y : R) : x <= y -> (Py.rint x <= Py.rint y)%Z.
Proof.
  intros [Hlt | ->]; [| lia].
  destruct (Z_le_gt_dec (Py.rint x) (Py.rint y)) as [H | H]; [exact H |].
  exfalso.
  assert (Hz : IZR (Py.rint y) + 1 <= IZR (Py.rint x)).
  { rewrite <- plus_IZR. apply IZR_le. lia. }
  pose proof (rint_near x) as Hx. pose proof (rint_near y) as Hy. lra.
Qed.

Lemma pow10_pos (n : nat) : 0 < 10 ^ n.
Proof. apply pow_lt. lra. Qed.

Lemma round_mono (n : nat) (x y : R) : x <= y -> Py.round x n <= Py.round y n.
Proof.
  intros Hxy. unfold Py.round. pose proof (pow10_pos n) as Hp.
  apply Rmult_le_compat_r; [left; apply Rinv_0_lt_compat; exact Hp |].
  apply IZR_le, rint_mono. nra.
Qed.

Lemma round_0 (n : nat) : Py.round 0 n = 0.
Proof.
  unfold Py.round. rewrite Rmult_0_l. change 0 with (IZR 0) at 1.
  rewrite rint_IZR. pose proof (pow10_pos n). field. lra.
Qed.

Lemma round_nonpos (n : nat) (x : R) : x <= 0 -> Py.round x n <= 0.
Proof. intros Hx. rewrite <- (round_0 n). apply round_mono, Hx. Qed.

Lemma round_near (n : nat) (x : R) :
  x - 1 / 2 / 10 ^ n <= Py.round x n <= x + 1 / 2 / 10 ^ n.
Proof.
  unfold Py.round. pose proof (pow10_pos n) as Hp.
  destruct (rint_near (x * 10 ^ n)) as [Hlo Hhi].
  split.
  - apply Rmult_le_reg_r with (10 ^ n); [exact Hp |].
    replace (IZR (Py.rint (x * 10 ^ n)) / 10 ^ n * 10 ^ n)
      with (IZR (Py.rint (x * 10 ^ n))) by (field; lra).
    replace ((x - 1 / 2 / 10 ^ n) * 10 ^ n) with (x * 10 ^ n - 1 / 2) by (field; lra).
    exact Hlo.
  - apply Rmult_le_reg_r with (10 ^ n); [exact Hp |].
    replace (IZR (Py.rint (x * 10 ^ n)) / 10 ^ n * 10 ^ n)
      with (IZR (Py.rint (x * 10 ^ n))) by (field; lra).
    replace ((x + 1 / 2 / 10 ^ n) * 10 ^ n) with (x * 10 ^ n + 1 / 2) by (field; lra).
    exact Hhi.
Qed.

(** ** Shape of a call *)

(** [calculate_impact] in terms of its named locals. *)
Lemma calculate_impact_locals (self : AdvancedImpactCalculator) (t : R) (n : Z) :
  calculate_impact self t n =
  (_ ← Py.truediv (IZR (spend_lift_per_user self))
                  (IZR (current_avg_monthly_spend_non_zc self));
   roi ← (if Rgt_dec (monthly_cost self t n) 0
          then q ← Py.truediv (annual_impact self t n) (monthly_cost self t n * 12);
               mret (VFloat (Py.round (q * 100) 2))
          else mret (VInt 0));
   payback ← (if Rgt_dec (net_monthly_impact self t n) 0
              then q ← Py.truediv (monthly_cost self t n) (net_monthly_impact self t n);
                   mret (VFloat (Py.round q 1))
              else mret VInf);
   mret (results_of self t n roi payback)).
Proof. reflexivity. Qed.

Lemma truediv_ok (x y : R) : y <> 0 -> Py.truediv x y = Py.Ok (x / y).
Proof.
  intros Hy. unfold Py.truediv. destruct (Req_dec_T y 0); [contradiction | reflexivity].
Qed.

(** Neither guarded division can see a zero divisor: with a non-zero
    baseline spend the call runs to its [return]. *)
Lemma calculate_impact_returns (self : AdvancedImpactCalculator) (t : R) (n : Z) :
  current_avg_monthly_spend_non_zc self <> 0%Z ->
  calculate_impact self t n =
  Py.Ok (results_of self t n (roi_value self t n) (payback_value self t n)).
Proof.
  intros Hbase. rewrite calculate_impact_locals.
  rewrite (truediv_ok (IZR (spend_lift_per_user self))) by (apply not_0_IZR; exact Hbase).
  unfold roi_value, payback_value.
  destruct (Rgt_dec (monthly_cost self t n) 0) as [Hc | Hc];
    destruct (Rgt_dec (net_monthly_impact self t n) 0) as [Hn | Hn];
    rewrite ?truediv_ok by lra; reflexivity.
Qed.

Lemma init_returns (h : History) (fit : Fit) (t : R) (n : Z) :
  calculate_impact (init h fit) t n =
  Py.Ok (results_of (init h fit) t n
           (roi_value (init h fit) t n) (payback_value (init h fit) t n)).
Proof. apply calculate_impact_returns. discriminate. Qed.

Ltac lookup_key :=
  unfold results_of;
  repeat (rewrite lookup_insert_ne by discriminate);
  apply lookup_insert_eq.

Section Lookups.

Variables (self : AdvancedImpactCalculator) (t : R) (n : Z) (roi payback : value).

Abbreviation m := (results_of self t n roi payback).

Lemma lookup_current_coin_users :
  m !! "current_coin_users" = Some (VInt (Py.int (current_coin_users n))).
Proof. lookup_key. Qed.

Lemma lookup_target_coin_users :
  m !! "target_coin_users" = Some (VInt (Py.int (target_coin_users self t n))).
Proof. lookup_key. Qed.

Lemma lookup_new_coin_users :
  m !! "new_coin_users" = Some (VInt (Py.int (incremental_coin_users self t n))).
Proof. lookup_key. Qed.

Lemma lookup_incremental_revenue_monthly :
  m !! "incremental_revenue_monthly"
  = Some (VFloat (Py.round (monthly_incremental_revenue self t n) 2)).
Proof. lookup_key. Qed.

Lemma lookup_roi_percentage : m !! "roi_percentage" = Some roi.
Proof. lookup_key. Qed.

Lemma lookup_payback_period_months : m !! "payback_period_months" = Some payback.
Proof. lookup_key. Qed.

Lemma lookup_revenue_confidence_lower :
  m !! "revenue_confidence_lower"
  = Some (VFloat (Py.round (monthly_incremental_revenue self t n
                            - z_score * revenue_std self t n) 2)).
Proof. lookup_key. Qed.

Lemma lookup_revenue_confidence_upper :
  m !! "revenue_confidence_upper"
  = Some (VFloat (Py.round (monthly_incremental_revenue self t n
                            + z_score * revenue_std self t n) 2)).
Proof. lookup_key. Qed.

End Lookups.

(** ** The adoption curve *)

Section AdoptionCurve.

Variable self : AdvancedImpactCalculator.
Hypothesis saturation_pos : 0 < saturation_point self.
Hypothesis speed_nonneg : 0 <= adoption_speed self.

(** The logistic term before the cap. *)
Abbreviation logistic r :=
  (saturation_point self / (1 + exp (- adoption_speed self * (r * 10 - 5)))).

Lemma logistic_pos (r : R) : 0 < logistic r.
Proof.
  pose proof (exp_pos (- adoption_speed self * (r * 10 - 5))) as He.
  apply Rdiv_lt_0_compat; lra.
Qed.

Lemma logistic_below_saturation (r : R) : logistic r < saturation_point self.
Proof.
  pose proof (exp_pos (- adoption_speed self * (r * 10 - 5))) as He.
  apply Rmult_lt_reg_r with (1 + exp (- adoption_speed self * (r * 10 - 5))); [lra |].
  unfold Rdiv. rewrite Rmult_assoc, Rinv_l by lra. nra.
Qed.

Lemma exp_le_mono (a b : R) : a <= b -> exp a <= exp b.
Proof.
  intros [Hlt | ->]; [left; apply exp_increasing, Hlt | right; reflexivity].
Qed.

Lemma logistic_mono (r1 r2 : R) : r1 <= r2 -> logistic r1 <= logistic r2.
Proof.
  intros Hr.
  pose proof (exp_pos (- adoption_speed self * (r1 * 10 - 5))) as H1.
  pose proof (exp_pos (- adoption_speed self * (r2 * 10 - 5))) as H2.
  assert (He : exp (- adoption_speed self * (r2 * 10 - 5))
               <= exp (- adoption_speed self * (r1 * 10 - 5))).
  { apply exp_le_mono. nra. }
  unfold Rdiv. apply Rmult_le_compat_l; [lra |].
  apply Rinv_le_contravar; lra.
Qed.

Lemma curve_le_target (r : R) : _apply_adoption_curve self r <= r.
Proof. unfold _apply_adoption_curve. apply Rmin_r. Qed.

Lemma curve_lt_saturation (r : R) : _apply_adoption_curve self r < saturation_point self.
Proof.
  unfold _apply_adoption_curve.
  eapply Rle_lt_trans; [apply Rmin_l | apply logistic_below_saturation].
Qed.

Lemma curve_mono (r1 r2 : R) :
  r1 <= r2 -> _apply_adoption_curve self r1 <= _apply_adoption_curve self r2.
Proof.
  intros Hr. unfold _apply_adoption_curve.
  apply Rmin_glb.
  - eapply Rle_trans; [apply Rmin_l | apply logistic_mono, Hr].
  - eapply Rle_trans; [apply Rmin_r | exact Hr].
Qed.

Lemma curve_nonneg (r : R) : 0 <= r -> 0 <= _apply_adoption_curve self r.
Proof.
  intros Hr. unfold _apply_adoption_curve.
  apply Rmin_glb; [left; apply logistic_pos | exact Hr].
Qed.

Lemma curve_pos (r : R) : 0 < r -> 0 < _apply_adoption_curve self r.
Proof.
  intros Hr. unfold _apply_adoption_curve.
  apply Rmin_glb_lt; [apply logistic_pos | exact Hr].
Qed.

End AdoptionCurve.

Lemma init_saturation_pos (h : History) (fit : Fit) : 0 < saturation_point (init h fit).
Proof. simpl. lra. Qed.

Lemma init_speed_nonneg (h : History) (fit : Fit) : 0 <= adoption_speed (init h fit).
Proof. simpl. lra. Qed.

(** C2. For every target percentage in [0,100] the effective adoption
    fraction [_apply_adoption_curve (t/100)] is at most the raw target
    fraction [t/100]. *)
Theorem effective_rate_le_target (h : History) (fit : Fit) (t : R) :
  0 <= t <= 100 ->
  _apply_adoption_curve (init h fit) (t / 100) <= t / 100.
Proof. intros _. apply curve_le_target. Qed.

Lemma effective_rate_le_target_witness :
  0 <= 40 <= 100 /\ _apply_adoption_curve documented (40 / 100) <= 40 / 100.
Proof.
  split; [lra | apply (effective_rate_le_target no_history no_fit 40); lra].
Defined.

(** C3. The effective adoption fraction is monotonic non-decreasing in
    the target: for targets t1 <= t2 in [0,100] the curve at t1/100 is at
    most the curve at t2/100. *)
Theorem effective_rate_monotone (h : History) (fit : Fit) (t1 t2 : R) :
  0 <= t1 <= 100 -> 0 <= t2 <= 100 -> t1 <= t2 ->
  _apply_adoption_curve (init h fit) (t1 / 100)
  <= _apply_adoption_curve (init h fit) (t2 / 100).
Proof.
  intros _ _ Ht. apply curve_mono.
  - apply init_saturation_pos.
  - apply init_speed_nonneg.
  - lra.
Qed.

Lemma effective_rate_monotone_witness :
  0 <= 20 <= 100 /\ 0 <= 40 <= 100 /\ 20 <= 40 /\
  _apply_adoption_curve documented (20 / 100)
  <= _apply_adoption_curve documented (40 / 100).
Proof.
  repeat (split; [lra |]).
  apply (effective_rate_monotone no_history no_fit 20 40); lra.
Defined.

(** Bounding a quotient by bounding its numerator. *)
Lemma div_between (a d lo hi : R) :
  0 < d -> lo * d <= a <= hi * d -> lo <= a / d <= hi.
Proof.
  intros Hd [Hlo Hhi]. assert (Hq : a = a / d * d) by (field; lra).
  split; nra.
Qed.

Lemma div_above (a d lo : R) : 0 < d -> lo * d < a -> lo < a / d.
Proof.
  intros Hd Hlo. assert (Hq : a = a / d * d) by (field; lra). nra.
Qed.

(** Bounds on the exponential at the points the scenarios need. *)

Lemma exp_double (x : R) : exp (2 * x) = exp x * exp x.
Proof. replace (2 * x) with (x + x) by lra. apply exp_plus. Qed.

Lemma exp_4_lower : 25 < exp 4.
Proof.
  assert (Hh : 3 / 2 <= exp (1 / 2)).
  { pose proof (exp_ineq1_le (1 / 2)). lra. }
  assert (H1 : 9 / 4 <= exp 1).
  { replace 1 with (2 * (1 / 2)) by lra. rewrite exp_double. nra. }
  assert (H2 : 81 / 16 <= exp 2).
  { replace 2 with (2 * 1) at 1 by lra. rewrite exp_double. nra. }
  replace 4 with (2 * 2) by lra. rewrite exp_double. nra.
Qed.

Lemma exp_08_bounds : 18 / 10 <= exp (8 / 10) <= 3.
Proof.
  split.
  - pose proof (exp_ineq1_le (8 / 10)). lra.
  - eapply Rle_trans; [| apply exp_le_3].
    left. apply exp_increasing. lra.
Qed.

(** The effective rate of the documented 40% target is the logistic
    value, between 11.25% and 16.08%: below the 21% in use today. *)
Lemma effective_rate_40 (h : History) (fit : Fit) :
  1125 / 10000 <= effective_rate (init h fit) 40 <= 1608 / 10000.
Proof.
  unfold effective_rate, _apply_adoption_curve. simpl.
  replace (- (8 / 10) * (40 / 100 * 10 - 5)) with (8 / 10) by lra.
  destruct exp_08_bounds as [Hlo Hhi].
  assert (Ha : 1125 / 10000 <= 45 / 100 / (1 + exp (8 / 10)) <= 1608 / 10000).
  { apply div_between; lra. }
  rewrite Rmin_left by lra. exact Ha.
Qed.

(** C10. For every target in [0,100] the effective adoption rate is
    strictly below the saturation point 0.45, so the projected and the
    reported [target_coin_users] stay strictly below 0.45 times the
    eligible population; a 100% target yields a rate between 43% and
    45%. *)
Theorem effective_rate_below_saturation (h : History) (fit : Fit) (t : R) (n : Z) :
  0 <= t <= 100 -> (0 < n)%Z ->
  _apply_adoption_curve (init h fit) (t / 100) < 45 / 100 /\
  target_coin_users (init h fit) t n < 45 / 100 * eligible_customers n /\
  (exists (m : gmap string value) (z : Z),
      calculate_impact (init h fit) t n = Py.Ok m /\
      m !! "target_coin_users" = Some (VInt z) /\
      IZR z < 45 / 100 * eligible_customers n) /\
  43 / 100 < _apply_adoption_curve (init h fit) (100 / 100) < 45 / 100.
Proof.
  intros Ht Hn.
  pose proof (curve_lt_saturation (init h fit) (init_saturation_pos h fit)) as Hsat.
  simpl saturation_point in Hsat.
  assert (He : 0 < eligible_customers n).
  { unfold eligible_customers. apply IZR_lt in Hn. lra. }
  assert (Hlt : target_coin_users (init h fit) t n < 45 / 100 * eligible_customers n).
  { unfold target_coin_users, effective_rate. specialize (Hsat (t / 100)). nra. }
  split; [apply Hsat |]. split; [exact Hlt |]. split.
  - eexists _, _. split; [apply init_returns |].
    split; [apply lookup_target_coin_users |].
    eapply Rle_lt_trans; [| exact Hlt].
    apply int_nonneg_le. unfold target_coin_users, effective_rate.
    apply Rmult_le_pos; [lra |].
    apply curve_nonneg; [apply init_saturation_pos | lra].
  - split; [| apply Hsat].
    unfold _apply_adoption_curve. simpl.
    replace (- (8 / 10) * (100 / 100 * 10 - 5)) with (Ropp 4) by lra.
    rewrite exp_Ropp. pose proof exp_4_lower as H4.
    assert (Hi : 0 < / exp 4 < 1 / 25).
    { split; [apply Rinv_0_lt_compat; lra |].
      replace (1 / 25) with (/ 25) by lra.
      apply Rinv_lt_contravar; [nra | lra]. }
    apply Rmin_glb_lt; [| lra].
    apply div_above; lra.
Qed.

Lemma effective_rate_below_saturation_witness :
  0 <= 100 <= 100 /\ (0 < 20000)%Z /\
  _apply_adoption_curve documented (100 / 100) < 45 / 100 /\
  target_coin_users documented 100 20000 < 45 / 100 * eligible_customers 20000.
Proof.
  assert (Ht : 0 <= 100 <= 100) by lra.
  assert (Hn : (0 < 20000)%Z) by lia.
  pose proof (effective_rate_below_saturation no_history no_fit 100 20000 Ht Hn)
    as [H1 [H2 _]].
  repeat split; [lra | lra | exact H1 | exact H2].
Defined.

(** C9. In the documented scenario (20000 customers, 40% target, the
    fallback configuration) [current_coin_users] is reported as 3360 and
    [target_coin_users] as at most 6400, the effective rate being below
    the raw 40%. *)
Theorem documented_scenario :
  current_avg_monthly_spend_zc documented = 1088%Z /\
  current_avg_monthly_spend_non_zc documented = 624%Z /\
  avg_freq_zc documented = 73 / 10 /\
  effective_rate documented 40 < 40 / 100 /\
  exists (m : gmap string value) (z : Z),
    calculate_impact documented 40 20000 = Py.Ok m /\
    m !! "current_coin_users" = Some (VInt 3360) /\
    m !! "target_coin_users" = Some (VInt z) /\
    (z <= 6400)%Z.
Proof.
  pose proof (effective_rate_40 no_history no_fit) as He. fold documented in He.
  repeat (split; [reflexivity || lra |]).
  eexists _, _. split; [apply init_returns |]. split; [| split].
  - rewrite lookup_current_coin_users. do 2 f_equal.
    replace (current_coin_users 20000) with (IZR 3360).
    + apply int_IZR.
    + unfold current_coin_users, eligible_customers, current_rate. lra.
  - apply lookup_target_coin_users.
  - apply le_IZR.
    assert (Ht : 0 <= target_coin_users (init no_history no_fit) 40 20000 <= 6400).
    { unfold target_coin_users, eligible_customers. fold documented. lra. }
    pose proof (int_nonneg_le _ (proj1 Ht)). lra.
Qed.

(** ** Signs of the monthly figures *)

Lemma incrementality_bounds (r : R) : 4 / 10 <= _calculate_incrementality r.
Proof. unfold _calculate_incrementality. apply Rmax_l. Qed.

Lemma monthly_incremental_revenue_eq (self : AdvancedImpactCalculator) (t : R) (n : Z) :
  monthly_incremental_revenue self t n
  = incremental_coin_users self t n * incremental_spend_per_user self t.
Proof.
  unfold monthly_incremental_revenue.
  destruct (Rgt_dec (incremental_coin_users self t n) 0); reflexivity.
Qed.

Lemma monthly_cost_eq (self : AdvancedImpactCalculator) (t : R) (n : Z) :
  monthly_cost self t n
  = incremental_coin_users self t n * 30 * avg_freq_zc self * volume_discount self t.
Proof.
  unfold monthly_cost.
  destruct (Rgt_dec (incremental_coin_users self t n) 0); reflexivity.
Qed.

(** [int] of a negative number is negative exactly from -1 down. *)
Lemma int_negative_iff (x : R) : x < 0 -> ((Py.int x < 0)%Z <-> x <= - 1).
Proof.
  intros Hx. unfold Py.int.
  destruct (Rle_dec 0 x) as [H | _]; [lra |].
  destruct (floor_spec (- x)) as [Flo Fhi]. split; intros H.
  - assert (Hz : (1 <= Py.floor (- x))%Z) by lia.
    apply IZR_le in Hz. lra.
  - assert (Hz : (0 < Py.floor (- x))%Z); [| lia].
    apply lt_IZR. lra.
Qed.

Lemma int_small_negative (x : R) : - 1 < x < 0 -> Py.int x = 0%Z.
Proof.
  intros Hx. unfold Py.int.
  destruct (Rle_dec 0 x) as [H | _]; [lra |].
  rewrite (floor_unique (- x) 0); [reflexivity | lra].
Qed.




(** ** Confidence bounds *)

Lemma round2_near (x : R) : x - 5 / 1000 <= Py.round x 2 <= x + 5 / 1000.
Proof.
  pose proof (round_near 2 x) as H.
  replace (1 / 2 / 10 ^ 2) with (5 / 1000) in H by (simpl; lra). exact H.
Qed.

(** With a revenue below -1 the reported bounds come out in the wrong
    order around the reported revenue. *)
Lemma confidence_bounds_of_negative_revenue
    (self : AdvancedImpactCalculator) (t : R) (n : Z) :
  monthly_incremental_revenue self t n < - 1 ->
  Py.round (monthly_incremental_revenue self t n + z_score * revenue_std self t n) 2
  < Py.round (monthly_incremental_revenue self t n) 2
  < Py.round (monthly_incremental_revenue self t n - z_score * revenue_std self t n) 2.
Proof.
  intros Hneg. unfold revenue_std, z_score.
  set (rev := monthly_incremental_revenue self t n) in *.
  pose proof (round2_near rev) as H0.
  pose proof (round2_near (rev + 1959963984540054 / 1000000000000000 * (rev * (15 / 100)))) as H1.
  pose proof (round2_near (rev - 1959963984540054 / 1000000000000000 * (rev * (15 / 100)))) as H2.
  lra.
Qed.

(** Revenue of the documented 40% target: a contraction. *)
Lemma revenue_40 (h : History) (fit : Fit) :
  monthly_incremental_revenue (init h fit) 40 20000 < - 1.
Proof.
  rewrite monthly_incremental_revenue_eq.
  pose proof (effective_rate_40 h fit) as He.
  pose proof (incrementality_bounds (effective_rate (init h fit) 40)) as Hi.
  unfold incremental_coin_users, target_coin_users, current_coin_users,
    eligible_customers, current_rate, incremental_spend_per_user.
  simpl spend_lift_per_user.
  set (e := effective_rate (init h fit) 40) in *.
  set (i := _calculate_incrementality e) in *.
  assert (Hu : 20000 * (8 / 10) * e - 20000 * (8 / 10) * (21 / 100) <= - 700) by lra.
  assert (Hs : 185 <= 464 * i) by lra.
  nra.
Qed.

(** C4, at the documented example input (target 40, 20000 customers).
    The claim asks for lower <= revenue <= upper; the code reports
    upper < revenue < lower there, the deviation being computed from the
    signed revenue. *)
Theorem confidence_bounds_inverted_at_40 :
  exists (m : gmap string value) (lo r up : R),
    calculate_impact documented 40 20000 = Py.Ok m /\
    m !! "revenue_confidence_lower" = Some (VFloat lo) /\
    m !! "incremental_revenue_monthly" = Some (VFloat r) /\
    m !! "revenue_confidence_upper" = Some (VFloat up) /\
    up < r < lo.
Proof.
  eexists _, _, _, _. split; [apply init_returns |].
  split; [apply lookup_revenue_confidence_lower |].
  split; [apply lookup_incremental_revenue_monthly |].
  split; [apply lookup_revenue_confidence_upper |].
  apply confidence_bounds_of_negative_revenue, revenue_40.
Qed.

(** ** The twelve-month sum *)

Lemma fold_left_Rplus_acc (xs : list R) (a : R) :
  fold_left Rplus xs a = a + fold_left Rplus xs 0.
Proof.
  revert a. induction xs as [| x xs IH]; intros a; simpl.
  - lra.
  - rewrite IH, (IH (0 + x)). lra.
Qed.

Lemma sum_cons (x : R) (xs : list R) : sum (x :: xs) = x + sum xs.
Proof. unfold sum. simpl. rewrite fold_left_Rplus_acc. lra. Qed.

Lemma sum_nonneg (xs : list R) : Forall (fun x => 0 <= x) xs -> 0 <= sum xs.
Proof.
  induction 1 as [| x xs Hx _ IH].
  - unfold sum. simpl. lra.
  - rewrite sum_cons. lra.
Qed.

Lemma sum_ge_member (xs : list R) (y : R) :
  Forall (fun x => 0 <= x) xs -> In y xs -> y <= sum xs.
Proof.
  induction 1 as [| x xs Hx Hxs IH]; intros Hin.
  - destruct Hin.
  - rewrite sum_cons. destruct Hin as [-> | Hin].
    + pose proof (sum_nonneg xs Hxs). lra.
    + specialize (IH Hin). lra.
Qed.

Lemma month_impact_factored (self : AdvancedImpactCalculator) (t : R) (n : Z) (k : nat) :
  month_impact self t n k
  = eligible_customers n * _monthly_growth_curve k (effective_rate self t)
    * (incremental_spend_per_user self t - 30 * avg_freq_zc self * volume_discount self t).
Proof. unfold month_impact. ring. Qed.

Lemma growth_curve_nonneg (k : nat) (r : R) : 0 <= r -> 0 <= _monthly_growth_curve k r.
Proof.
  intros Hr. unfold _monthly_growth_curve.
  pose proof (exp_pos (- (8 / 10) * (INR k - 6))) as He.
  apply Rmin_glb; [| exact Hr].
  apply Rmult_le_pos; [exact Hr |]. left. apply Rinv_0_lt_compat. lra.
Qed.

Lemma growth_curve_month_6 (r : R) : 0 <= r -> _monthly_growth_curve 6 r = r / 2.
Proof.
  intros Hr. unfold _monthly_growth_curve.
  replace (- (8 / 10) * (INR 6 - 6)) with 0 by (simpl; lra).
  rewrite exp_0. replace (1 + 1) with 2 by lra.
  apply Rmin_left. lra.
Qed.

(** The per-user margin and the monthly cost of the documented 40%
    target. *)
Lemma margin_40 :
  109 <= incremental_spend_per_user documented 40
         - 30 * avg_freq_zc documented * volume_discount documented 40.
Proof.
  pose proof (effective_rate_40 no_history no_fit) as He. fold documented in He.
  unfold incremental_spend_per_user, volume_discount, _calculate_incrementality.
  simpl spend_lift_per_user. simpl avg_freq_zc.
  set (e := effective_rate documented 40) in *.
  rewrite Rmin_left by lra.
  pose proof (Rmax_r (4 / 10) (75 / 100 - e * (3 / 10))) as Hm.
  lra.
Qed.

Lemma monthly_cost_40 :
  - 338000 <= monthly_cost documented 40 20000 < 0.
Proof.
  rewrite monthly_cost_eq.
  pose proof (effective_rate_40 no_history no_fit) as He. fold documented in He.
  unfold incremental_coin_users, target_coin_users, current_coin_users,
    eligible_customers, current_rate, volume_discount.
  simpl avg_freq_zc.
  set (e := effective_rate documented 40) in *.
  rewrite Rmin_left by lra.
  split; nra.
Qed.

Lemma annual_impact_40 : 98000 <= annual_impact documented 40 20000.
Proof.
  pose proof (effective_rate_40 no_history no_fit) as He. fold documented in He.
  pose proof margin_40 as Hm.
  assert (Hall : Forall (fun x => 0 <= x)
                   (map (month_impact documented 40 20000) (seq 0 12))).
  { apply List.Forall_forall. intros x Hx. apply in_map_iff in Hx.
    destruct Hx as [k [<- _]]. rewrite month_impact_factored.
    pose proof (growth_curve_nonneg k (effective_rate documented 40)) as Hg.
    unfold eligible_customers.
    apply Rmult_le_pos; [apply Rmult_le_pos; lra | lra]. }
  eapply Rle_trans; [| apply (sum_ge_member _ (month_impact documented 40 20000 6) Hall)].
  - rewrite month_impact_factored, growth_curve_month_6 by lra.
    unfold eligible_customers.
    set (e := effective_rate documented 40) in *.
    set (mg := incremental_spend_per_user documented 40
               - 30 * avg_freq_zc documented * volume_discount documented 40) in *.
    assert (Hu : 900 <= 20000 * (8 / 10) * (e / 2)) by lra.
    nra.
  - apply in_map. apply in_seq. lia.
Qed.

(** ** Return on investment *)

(** C5, as the code has it. Every call returns, without a division
    error; [roi_percentage] is the quotient
    [annual_impact / (monthly_cost * 12) * 100] rounded to two decimals
    when the incremental monthly cost is greater than 0, and the integer
    0 whenever that cost is zero or negative. *)
Theorem roi_percentage_guarded (h : History) (fit : Fit) (t : R) (n : Z) :
  exists m : gmap string value,
    calculate_impact (init h fit) t n = Py.Ok m /\
    (monthly_cost (init h fit) t n > 0 ->
     m !! "roi_percentage"
     = Some (VFloat (Py.round (annual_impact (init h fit) t n
                               / (monthly_cost (init h fit) t n * 12) * 100) 2))) /\
    (monthly_cost (init h fit) t n <= 0 ->
     m !! "roi_percentage" = Some (VInt 0)).
Proof.
  eexists. split; [apply init_returns |].
  rewrite lookup_roi_percentage. unfold roi_value.
  destruct (Rgt_dec (monthly_cost (init h fit) t n) 0) as [Hc | Hc].
  - split; [reflexivity | lra].
  - split; [lra | reflexivity].
Qed.

(** C5 as stated fails at the documented example input: the incremental
    monthly cost is non-zero (negative), the quotient is below -1, even
    after rounding, and yet the reported [roi_percentage] is 0. *)
Lemma roi_zero_despite_nonzero_cost :
  exists m : gmap string value,
    calculate_impact documented 40 20000 = Py.Ok m /\
    monthly_cost documented 40 20000 <> 0 /\
    m !! "roi_percentage" = Some (VInt 0) /\
    annual_impact documented 40 20000 / (monthly_cost documented 40 20000 * 12) * 100 <> 0 /\
    annual_impact documented 40 20000 / (monthly_cost documented 40 20000 * 12) * 100 < - 1 /\
    Py.round (annual_impact documented 40 20000
              / (monthly_cost documented 40 20000 * 12) * 100) 2 <> 0.
Proof.
  pose proof monthly_cost_40 as Hc. pose proof annual_impact_40 as Ha.
  assert (Hq : annual_impact documented 40 20000
               / (monthly_cost documented 40 20000 * 12) * 100 < - 1).
  { set (a := annual_impact documented 40 20000) in *.
    set (c := monthly_cost documented 40 20000) in *.
    assert (Hd : a = a / (c * 12) * (c * 12)) by (field; lra).
    set (q := a / (c * 12)) in *. nra. }
  eexists. split; [apply init_returns |].
  split; [lra |]. split.
  - rewrite lookup_roi_percentage. unfold roi_value.
    destruct (Rgt_dec (monthly_cost (init no_history no_fit) 40 20000) 0) as [Hpos | _];
      [| reflexivity].
    fold documented in Hpos. lra.
  - split; [lra |]. split; [exact Hq |].
    pose proof (round2_near (annual_impact documented 40 20000
                             / (monthly_cost documented 40 20000 * 12) * 100)).
    lra.
Qed.

(** ** Payback period *)

Lemma rint_unique (y : R) (z : Z) :
  IZR z - 1 / 2 < y < IZR z + 1 / 2 -> Py.rint y = z.
Proof.
  intros Hy. pose proof (rint_near y) as Hn.
  assert (H1 : (Py.rint y < z + 1)%Z).
  { apply lt_IZR. rewrite plus_IZR. lra. }
  assert (H2 : (z < Py.rint y + 1)%Z).
  { apply lt_IZR. rewrite plus_IZR. lra. }
  lia.
Qed.

(** A 50% target sits at the centre of the logistic curve. *)
Lemma effective_rate_50 (h : History) (fit : Fit) :
  effective_rate (init h fit) 50 = 225 / 1000.
Proof.
  unfold effective_rate, _apply_adoption_curve. simpl.
  replace (- (8 / 10) * (50 / 100 * 10 - 5)) with 0 by lra.
  rewrite exp_0. rewrite Rmin_left; lra.
Qed.

Lemma monthly_figures_50 :
  monthly_cost documented 50 20000 = 513774 / 10 /\
  net_monthly_impact documented 50 20000 = 246258 / 10.
Proof.
  unfold net_monthly_impact.
  rewrite monthly_cost_eq, monthly_incremental_revenue_eq.
  unfold incremental_coin_users, target_coin_users, current_coin_users,
    eligible_customers, current_rate, volume_discount, incremental_spend_per_user,
    _calculate_incrementality, documented.
  rewrite effective_rate_50. simpl spend_lift_per_user. simpl avg_freq_zc.
  rewrite Rmin_left by lra. rewrite Rmax_right by lra.
  split; lra.
Qed.

(** C6, as the code has it. Every call returns, without a division
    error; [payback_period_months] is the quotient
    [monthly_cost / net_monthly_impact] rounded to one decimal when the
    net monthly impact is greater than 0, and infinity when it is zero or
    negative. *)
Theorem payback_period_guarded (h : History) (fit : Fit) (t : R) (n : Z) :
  exists m : gmap string value,
    calculate_impact (init h fit) t n = Py.Ok m /\
    (net_monthly_impact (init h fit) t n > 0 ->
     m !! "payback_period_months"
     = Some (VFloat (Py.round (monthly_cost (init h fit) t n
                               / net_monthly_impact (init h fit) t n) 1))) /\
    (net_monthly_impact (init h fit) t n <= 0 ->
     m !! "payback_period_months" = Some VInf).
Proof.
  eexists. split; [apply init_returns |].
  rewrite lookup_payback_period_months. unfold payback_value.
  destruct (Rgt_dec (net_monthly_impact (init h fit) t n) 0) as [Hn | Hn].
  - split; [reflexivity | lra].
  - split; [lra | reflexivity].
Qed.

(** C6 as stated fails at target 50 with 20000 customers: the net
    monthly impact is positive, the quotient cost / net lies strictly
    between 2.08 and 2.09, and the reported payback period is 2.1. *)
Lemma payback_rounded_at_50 :
  exists m : gmap string value,
    calculate_impact documented 50 20000 = Py.Ok m /\
    net_monthly_impact documented 50 20000 > 0 /\
    m !! "payback_period_months" = Some (VFloat (21 / 10)) /\
    monthly_cost documented 50 20000 / net_monthly_impact documented 50 20000 < 209 / 100 /\
    m !! "payback_period_months"
    <> Some (VFloat (monthly_cost documented 50 20000 / net_monthly_impact documented 50 20000)).
Proof.
  destruct monthly_figures_50 as [Hc Hn].
  assert (Hq : 208 / 100 < monthly_cost documented 50 20000
                           / net_monthly_impact documented 50 20000 < 209 / 100).
  { rewrite Hc, Hn. lra. }
  assert (Hv : payback_value documented 50 20000 = VFloat (21 / 10)).
  { unfold payback_value.
    destruct (Rgt_dec (net_monthly_impact documented 50 20000) 0) as [_ | Hneg];
      [| rewrite Hn in Hneg; lra].
    f_equal. unfold Py.round.
    rewrite (rint_unique _ 21); [simpl; lra |].
    simpl. lra. }
  eexists. split; [apply init_returns |].
  fold documented. rewrite lookup_payback_period_months, Hv.
  split; [rewrite Hn; lra |]. split; [reflexivity |]. split; [apply Hq |].
  intros Heq. injection Heq as Heq. lra.
Qed.

(** ** Input validation *)

Lemma effective_rate_past_100 (h : History) (fit : Fit) :
  effective_rate (init h fit) 100 < effective_rate (init h fit) 150.
Proof.
  pose proof (logistic_below_saturation (init h fit) (init_saturation_pos h fit)) as Hs.
  pose proof (logistic_pos (init h fit) (init_saturation_pos h fit)) as Hp.
  unfold effective_rate, _apply_adoption_curve.
  pose proof (Hs (100 / 100)) as H1. pose proof (Hs (150 / 100)) as H2.
  simpl in H1, H2 |- *.
  rewrite !Rmin_left by lra.
  pose proof (exp_pos (- (8 / 10) * (150 / 100 * 10 - 5))) as He.
  assert (Hlt : exp (- (8 / 10) * (150 / 100 * 10 - 5))
                < exp (- (8 / 10) * (100 / 100 * 10 - 5))).
  { apply exp_increasing. lra. }
  unfold Rdiv. apply Rmult_lt_compat_l; [lra |].
  apply Rinv_lt_contravar; [nra | lra].
Qed.

(** C1, as the code has it. [calculate_impact] validates nothing: for
    every target percentage between -1000 and 1000 and every customer
    count between -10^9 and 10^9, inside the documented range or not, it
    raises no error and returns a dictionary holding all sixteen keys; a
    target above 100 is not clamped to 100 either. *)
Theorem calculate_impact_total (h : History) (fit : Fit) (t : R) (n : Z) :
  - 1000 <= t <= 1000 ->
  (- 1000000000 <= n <= 1000000000)%Z ->
  (exists m : gmap string value,
      calculate_impact (init h fit) t n = Py.Ok m /\
      Forall (fun k : string => is_Some (m !! k)) result_keys) /\
  effective_rate (init h fit) 100 < effective_rate (init h fit) 150.
Proof.
  intros _ _.
  split; [| apply effective_rate_past_100].
  eexists. split; [apply init_returns |].
  unfold result_keys, results_of.
  repeat (apply Forall_cons; split;
          [repeat (rewrite lookup_insert_ne by discriminate);
           rewrite lookup_insert_eq; eexists; reflexivity |]).
  apply Forall_nil_2.
Qed.

Lemma calculate_impact_total_witness :
  - 1000 <= 150 <= 1000 /\ (- 1000000000 <= -5 <= 1000000000)%Z /\
  exists m : gmap string value,
    calculate_impact documented 150 (-5) = Py.Ok m /\
    Forall (fun k : string => is_Some (m !! k)) result_keys.
Proof.
  assert (Ht : - 1000 <= 150 <= 1000) by lra.
  assert (Hn : (- 1000000000 <= -5 <= 1000000000)%Z) by lia.
  split; [exact Ht |]. split; [exact Hn |].
  exact (proj1 (calculate_impact_total no_history no_fit 150 (-5) Ht Hn)).
Defined.

(** C1 as stated fails: a target of 150 and a customer count of -5 each
    yield a returned dictionary; no error of any kind is raised. *)
Lemma out_of_range_inputs_accepted :
  (exists m : gmap string value, calculate_impact documented 150 20000 = Py.Ok m) /\
  (forall e : Py.exn, calculate_impact documented 150 20000 <> Py.Raise e) /\
  (exists m : gmap string value, calculate_impact documented 40 (-5) = Py.Ok m) /\
  (forall e : Py.exn, calculate_impact documented 40 (-5) <> Py.Raise e).
Proof.
  unfold documented. rewrite !init_returns.
  repeat split; try (eexists; reflexivity); intros e; discriminate.
Qed.

(** ** Determinism *)

(** The fields of [self] that [calculate_impact] and its helpers read. *)
Lemma calculate_impact_reads (c1 c2 : AdvancedImpactCalculator) (t : R) (n : Z) :
  current_avg_monthly_spend_zc c1 = current_avg_monthly_spend_zc c2 ->
  current_avg_monthly_spend_non_zc c1 = current_avg_monthly_spend_non_zc c2 ->
  spend_lift_per_user c1 = spend_lift_per_user c2 ->
  avg_freq_zc c1 = avg_freq_zc c2 ->
  saturation_point c1 = saturation_point c2 ->
  adoption_speed c1 = adoption_speed c2 ->
  calculate_impact c1 t n = calculate_impact c2 t n.
Proof.
  intros Hzc Hnon Hlift Hfreq Hsat Hspeed.
  unfold calculate_impact, _apply_adoption_curve.
  rewrite Hzc, Hnon, Hlift, Hfreq, Hsat, Hspeed. reflexivity.
Qed.

Lemma init_public_fields (h : History) (fit1 fit2 : Fit) (t : R) (n : Z) :
  calculate_impact (init h fit1) t n = calculate_impact (init h fit2) t n.
Proof.
  apply calculate_impact_reads; unfold init; simpl; reflexivity.
Qed.

(** The object a construction leaves behind. *)
Lemma constructed_object (RandomState : Type)
    (fit_models : History -> RandomState -> Fit * RandomState)
    (h : History) (w : World RandomState) :
  exists fit : Fit, self_obj (snd (__init__ fit_models h w)) = init h fit.
Proof.
  unfold __init__. destruct (10 <? monthly_data_len h)%nat.
  - unfold bind_method, draw_fit.
    destruct (fit_models h (np_random w)) as [fit rng]. exists fit. reflexivity.
  - exists no_fit. reflexivity.
Qed.


(** * Further properties of the calculator and its caller *)

(** ** Incrementality and risk *)

(** For a non-negative usage rate the incrementality lies between the
    floor 0.4 and the base 0.75. *)
Theorem incrementality_range (u : R) :
  0 <= u -> 4 / 10 <= _calculate_incrementality u <= 75 / 100.
Proof.
  intros Hu. unfold _calculate_incrementality. split.
  - apply Rmax_l.
  - apply Rmax_lub; lra.
Qed.

Lemma incrementality_range_witness :
  0 <= 1 / 2 /\ 4 / 10 <= _calculate_incrementality (1 / 2) <= 75 / 100.
Proof. split; [lra | apply (incrementality_range (1 / 2)); lra]. Defined.

(** Incrementality never rises with usage, and sits on the floor 0.4
    exactly from a usage rate of 7/6 on. *)
Theorem incrementality_antitone_floor (u1 u2 : R) :
  u1 <= u2 ->
  _calculate_incrementality u2 <= _calculate_incrementality u1 /\
  (_calculate_incrementality u1 = 4 / 10 <-> 7 / 6 <= u1).
Proof.
  intros Hu. unfold _calculate_incrementality. split.
  - apply Rmax_lub.
    + apply Rmax_l.
    + eapply Rle_trans; [| apply Rmax_r]. lra.
  - split; intros H.
    + pose proof (Rmax_r (4 / 10) (75 / 100 - u1 * (3 / 10))) as Hr. lra.
    + apply Rmax_left. lra.
Qed.

Lemma incrementality_antitone_floor_witness :
  1 <= 2 /\ _calculate_incrementality 2 <= _calculate_incrementality 1.
Proof.
  split; [lra |]. apply (incrementality_antitone_floor 1 2). lra.
Defined.

(** For a non-negative usage rate the risk factor lies between 0.1 and
    0.37, never falls as usage rises, and is 0.37 from a usage rate of
    0.6 on. *)
Theorem risk_factor_range (u1 u2 : R) :
  0 <= u1 -> u1 <= u2 ->
  1 / 10 <= _calculate_risk_factor u1 <= 37 / 100 /\
  _calculate_risk_factor u1 <= _calculate_risk_factor u2 /\
  (6 / 10 <= u1 -> _calculate_risk_factor u1 = 37 / 100).
Proof.
  intros H0 Hu. unfold _calculate_risk_factor.
  pose proof (Rmin_l (3 / 10) (u1 * (5 / 10))) as Hl1.
  assert (Hg1 : 0 <= Rmin (3 / 10) (u1 * (5 / 10))) by (apply Rmin_glb; lra).
  assert (Hm : Rmin (3 / 10) (u1 * (5 / 10)) <= Rmin (3 / 10) (u2 * (5 / 10))).
  { apply Rmin_glb.
    - apply Rmin_l.
    - eapply Rle_trans; [apply Rmin_r | lra]. }
  repeat split; try lra.
  intros H6. rewrite Rmin_left by lra. lra.
Qed.

Lemma risk_factor_range_witness :
  0 <= 1 / 10 /\ 1 / 10 <= 7 / 10 /\
  _calculate_risk_factor (1 / 10) <= _calculate_risk_factor (7 / 10).
Proof.
  assert (H0 : 0 <= 1 / 10) by lra. assert (Hu : 1 / 10 <= 7 / 10) by lra.
  pose proof (risk_factor_range (1 / 10) (7 / 10) H0 Hu) as [_ [Hm _]].
  split; [exact H0 |]. split; [exact Hu | exact Hm].
Defined.

(** ** The monthly growth curve *)

Lemma growth_denominator (k : nat) : 1 < 1 + exp (- (8 / 10) * (INR k - 6)).
Proof. pose proof (exp_pos (- (8 / 10) * (INR k - 6))). lra. Qed.

(** With a non-negative target the cap of the growth curve is never the
    smaller argument: the curve is the logistic value. *)
Lemma growth_curve_logistic (k : nat) (r : R) :
  0 <= r ->
  _monthly_growth_curve k r = r / (1 + exp (- (8 / 10) * (INR k - 6))).
Proof.
  intros Hr. unfold _monthly_growth_curve. apply Rmin_left.
  pose proof (growth_denominator k) as Hd.
  apply Rmult_le_reg_r with (1 + exp (- (8 / 10) * (INR k - 6))); [lra |].
  replace (r / (1 + exp (- (8 / 10) * (INR k - 6)))
           * (1 + exp (- (8 / 10) * (INR k - 6)))) with r by (field; lra).
  nra.
Qed.

Lemma growth_curve_strict_bounds (k : nat) (r : R) :
  0 < r -> 0 < _monthly_growth_curve k r < r.
Proof.
  intros Hr. rewrite growth_curve_logistic by lra.
  pose proof (growth_denominator k) as Hd.
  assert (Hq : r = r / (1 + exp (- (8 / 10) * (INR k - 6)))
                   * (1 + exp (- (8 / 10) * (INR k - 6)))) by (field; lra).
  set (q := r / (1 + exp (- (8 / 10) * (INR k - 6)))) in *.
  split; nra.
Qed.

(** For a positive target rate the growth curve stays strictly between 0
    and the target in each of the twelve months (indices 0 to 11) that
    [calculate_impact] and the dashboard evaluate: within the projected
    year the target itself is never reached. *)
Theorem growth_curve_below_target (k : nat) (r : R) :
  (k < 12)%nat -> 0 < r -> 0 < _monthly_growth_curve k r < r.
Proof.
  intros Hk Hr. apply growth_curve_strict_bounds. exact Hr.
Qed.

Lemma growth_curve_below_target_witness :
  (11 < 12)%nat /\ 0 < 4 / 10 /\ 0 < _monthly_growth_curve 11 (4 / 10) < 4 / 10.
Proof.
  split; [lia |]. split; [lra |].
  apply (growth_curve_below_target 11 (4 / 10)); [lia | lra].
Defined.

Lemma growth_curve_le_later (k1 k2 : nat) (r : R) :
  0 <= r -> (k1 <= k2)%nat ->
  _monthly_growth_curve k1 r <= _monthly_growth_curve k2 r.
Proof.
  intros Hr Hk. rewrite !growth_curve_logistic by exact Hr.
  pose proof (growth_denominator k1) as H1. pose proof (growth_denominator k2) as H2.
  assert (He : exp (- (8 / 10) * (INR k2 - 6)) <= exp (- (8 / 10) * (INR k1 - 6))).
  { apply le_INR in Hk.
    destruct (Rle_lt_or_eq_dec _ _ Hk) as [Hlt | Heq].
    - left. apply exp_increasing. lra.
    - rewrite Heq. lra. }
  unfold Rdiv. apply Rmult_le_compat_l; [exact Hr |].
  apply Rinv_le_contravar; lra.
Qed.

(** The growth curve never falls from one month to a later one. *)
Theorem growth_curve_monotone (k1 k2 : nat) (r : R) :
  0 <= r -> (k1 <= k2)%nat ->
  _monthly_growth_curve k1 r <= _monthly_growth_curve k2 r.
Proof.
  intros. apply growth_curve_le_later; assumption.
Qed.

Lemma growth_curve_monotone_witness :
  0 <= 4 / 10 /\ (2 <= 9)%nat /\
  _monthly_growth_curve 2 (4 / 10) <= _monthly_growth_curve 9 (4 / 10).
Proof.
  split; [lra |]. split; [lia |].
  apply (growth_curve_monotone 2 9 (4 / 10)); [lra | lia].
Defined.

Lemma growth_curve_mirror (k : nat) (r : R) :
  0 <= r -> (k <= 6)%nat ->
  _monthly_growth_curve (6 - k) r + _monthly_growth_curve (6 + k) r = r.
Proof.
  intros Hr Hk. rewrite !growth_curve_logistic by exact Hr.
  rewrite minus_INR by exact Hk. rewrite plus_INR.
  replace (- (8 / 10) * (INR 6 - INR k - 6)) with (8 / 10 * INR k) by (simpl; lra).
  replace (- (8 / 10) * (INR 6 + INR k - 6)) with (- (8 / 10 * INR k)) by (simpl; lra).
  rewrite exp_Ropp. pose proof (exp_pos (8 / 10 * INR k)) as He.
  field. split; lra.
Qed.

(** The curve is point-symmetric about month index 6: the values of the
    months 6 - k and 6 + k add up to the target rate. *)
Theorem growth_curve_symmetry (k : nat) (r : R) :
  0 <= r -> (k <= 6)%nat ->
  _monthly_growth_curve (6 - k) r + _monthly_growth_curve (6 + k) r = r.
Proof.
  intros. apply growth_curve_mirror; assumption.
Qed.

Lemma growth_curve_symmetry_witness :
  0 <= 4 / 10 /\ (5 <= 6)%nat /\
  _monthly_growth_curve (6 - 5) (4 / 10) + _monthly_growth_curve (6 + 5) (4 / 10) = 4 / 10.
Proof.
  split; [lra |]. split; [lia |].
  apply (growth_curve_symmetry 5 (4 / 10)); [lra | lia].
Defined.

(** A negative target rate is returned unchanged in every month: there
    the cap, not the logistic value, is the minimum. *)
Theorem growth_curve_negative_target (k : nat) (r : R) :
  r < 0 -> _monthly_growth_curve k r = r.
Proof.
  intros Hr. unfold _monthly_growth_curve. apply Rmin_right.
  pose proof (growth_denominator k) as Hd.
  assert (Hq : r = r / (1 + exp (- (8 / 10) * (INR k - 6)))
                   * (1 + exp (- (8 / 10) * (INR k - 6)))) by (field; lra).
  set (q := r / (1 + exp (- (8 / 10) * (INR k - 6)))) in *.
  nra.
Qed.

Lemma growth_curve_negative_target_witness :
  - (1 / 10) < 0 /\ _monthly_growth_curve 3 (- (1 / 10)) = - (1 / 10).
Proof.
  split; [lra | apply (growth_curve_negative_target 3 (- (1 / 10))); lra].
Defined.

(** ** Inside [calculate_impact] *)

Lemma init_effective_rate_lt (h : History) (fit : Fit) (t : R) :
  effective_rate (init h fit) t < 45 / 100.
Proof.
  pose proof (curve_lt_saturation (init h fit) (init_saturation_pos h fit) (t / 100)) as H.
  exact H.
Qed.

Lemma init_effective_rate_nonneg (h : History) (fit : Fit) (t : R) :
  0 <= t -> 0 <= effective_rate (init h fit) t.
Proof.
  intros Ht. apply curve_nonneg; [apply init_saturation_pos | lra].
Qed.

Lemma caps_inactive_under_saturation (h : History) (fit : Fit) (t : R) :
  _calculate_incrementality (effective_rate (init h fit) t)
  = 75 / 100 - effective_rate (init h fit) t * (3 / 10) /\
  volume_discount (init h fit) t = 1 - 1 / 10 * effective_rate (init h fit) t /\
  risk_factor (init h fit) t
  = 1 / 10 + 9 / 10 * (effective_rate (init h fit) t * (5 / 10)).
Proof.
  pose proof (init_effective_rate_lt h fit t) as He.
  unfold volume_discount, risk_factor, _calculate_risk_factor, _calculate_incrementality.
  set (e := effective_rate (init h fit) t) in *.
  rewrite Rmax_right by lra. rewrite Rmin_left by lra. rewrite Rmin_right by lra.
  repeat split; lra.
Qed.

(** Because the effective rate stays below 0.45, none of the caps in the
    helpers is ever reached from [calculate_impact]: the incrementality
    floor 0.4, the 0.5 cap of the volume discount and the 0.3 cap of the
    execution risk are all inactive, whatever the target. *)
Theorem helper_caps_inactive (h : History) (fit : Fit) (t : R) :
  _calculate_incrementality (effective_rate (init h fit) t)
  = 75 / 100 - effective_rate (init h fit) t * (3 / 10) /\
  volume_discount (init h fit) t = 1 - 1 / 10 * effective_rate (init h fit) t /\
  risk_factor (init h fit) t
  = 1 / 10 + 9 / 10 * (effective_rate (init h fit) t * (5 / 10)).
Proof.
  intros. apply caps_inactive_under_saturation; assumption.
Qed.

(** The per-user margin (incremental spend less discount cost) of a
    calculator whose redemption frequency is between 0 and 9. *)
Lemma init_margin_pos (h : History) (fit : Fit) (t : R) :
  0 <= avg_freq_zc (init h fit) <= 9 ->
  15 < incremental_spend_per_user (init h fit) t
       - 30 * avg_freq_zc (init h fit) * volume_discount (init h fit) t.
Proof.
  intros Hf. destruct (caps_inactive_under_saturation h fit t) as [Hi [Hv _]].
  pose proof (init_effective_rate_lt h fit t) as He.
  unfold incremental_spend_per_user. rewrite Hi, Hv.
  change (IZR (spend_lift_per_user (init h fit))) with 464.
  set (e := effective_rate (init h fit) t) in *.
  set (f := avg_freq_zc (init h fit)) in *.
  destruct (Rle_dec 0 e) as [Hpos | Hneg].
  - assert (0 <= f * e) by nra. nra.
  - assert (9 * e <= f * e) by nra. nra.
Qed.

Lemma net_monthly_impact_eq (self : AdvancedImpactCalculator) (t : R) (n : Z) :
  net_monthly_impact self t n
  = incremental_coin_users self t n
    * (incremental_spend_per_user self t - 30 * avg_freq_zc self * volume_discount self t).
Proof.
  unfold net_monthly_impact. rewrite monthly_incremental_revenue_eq, monthly_cost_eq. ring.
Qed.

Lemma net_impact_follows_delta (h : History) (fit : Fit) (t : R) (n : Z) :
  0 <= avg_freq_zc (init h fit) <= 9 ->
  (0 < incremental_coin_users (init h fit) t n -> 0 < net_monthly_impact (init h fit) t n) /\
  (incremental_coin_users (init h fit) t n < 0 -> net_monthly_impact (init h fit) t n < 0) /\
  (incremental_coin_users (init h fit) t n = 0 -> net_monthly_impact (init h fit) t n = 0).
Proof.
  intros Hf. pose proof (init_margin_pos h fit t Hf) as Hm.
  rewrite net_monthly_impact_eq.
  set (d := incremental_coin_users (init h fit) t n) in *.
  set (mg := incremental_spend_per_user (init h fit) t
             - 30 * avg_freq_zc (init h fit) * volume_discount (init h fit) t) in *.
  repeat split; intros Hd; nra.
Qed.

(** With a redemption frequency between 0 and 9 the net monthly impact
    has the sign of the user delta: positive for growth, negative for
    contraction, zero for no change. *)
Theorem net_impact_sign (h : History) (fit : Fit) (t : R) (n : Z) :
  0 <= avg_freq_zc (init h fit) <= 9 ->
  (0 < incremental_coin_users (init h fit) t n -> 0 < net_monthly_impact (init h fit) t n) /\
  (incremental_coin_users (init h fit) t n < 0 -> net_monthly_impact (init h fit) t n < 0) /\
  (incremental_coin_users (init h fit) t n = 0 -> net_monthly_impact (init h fit) t n = 0).
Proof.
  intros. apply net_impact_follows_delta; assumption.
Qed.

Lemma net_impact_sign_witness :
  0 <= avg_freq_zc documented <= 9 /\
  net_monthly_impact documented 40 20000 < 0.
Proof.
  assert (Hf : 0 <= avg_freq_zc (init no_history no_fit) <= 9) by (simpl; lra).
  split; [exact Hf |].
  apply (net_impact_sign no_history no_fit 40 20000 Hf).
  pose proof (effective_rate_40 no_history no_fit) as He.
  unfold incremental_coin_users, target_coin_users, current_coin_users,
    eligible_customers, current_rate. lra.
Defined.

Lemma delta_sign_by_target (h : History) (fit : Fit) (t : R) (n : Z) :
  (0 < n)%Z ->
  (t <= 48 -> incremental_coin_users (init h fit) t n < 0) /\
  (49 <= t -> 0 < incremental_coin_users (init h fit) t n).
Proof.
  intros Hn. apply IZR_lt in Hn.
  assert (H48 : effective_rate (init h fit) 48 < 21 / 100).
  { unfold effective_rate, _apply_adoption_curve.
    eapply Rle_lt_trans; [apply Rmin_l |]. simpl.
    replace (- (8 / 10) * (48 / 100 * 10 - 5)) with (16 / 100) by lra.
    pose proof (exp_ineq1_le (16 / 100)) as He.
    assert (Hq : 45 / 100 = 45 / 100 / (1 + exp (16 / 100)) * (1 + exp (16 / 100)))
      by (field; lra).
    set (q := 45 / 100 / (1 + exp (16 / 100))) in *. nra. }
  assert (H49 : 21 / 100 < effective_rate (init h fit) 49).
  { unfold effective_rate, _apply_adoption_curve.
    apply Rmin_glb_lt; [| lra]. simpl.
    replace (- (8 / 10) * (49 / 100 * 10 - 5)) with (8 / 100) by lra.
    pose proof (exp_ineq1_le (- (8 / 100))) as He.
    rewrite exp_Ropp in He. pose proof (exp_pos (8 / 100)) as Hp.
    assert (Hi : / exp (8 / 100) * exp (8 / 100) = 1) by (field; lra).
    assert (Hu : exp (8 / 100) <= 109 / 100).
    { set (x := exp (8 / 100)) in *. set (y := / x) in *. nra. }
    apply div_above; lra. }
  unfold incremental_coin_users, target_coin_users, current_coin_users,
    eligible_customers, current_rate.
  split; intros Ht.
  - assert (Hm : effective_rate (init h fit) t <= effective_rate (init h fit) 48).
    { apply curve_mono; [apply init_saturation_pos | apply init_speed_nonneg | lra]. }
    nra.
  - assert (Hm : effective_rate (init h fit) 49 <= effective_rate (init h fit) t).
    { apply curve_mono; [apply init_saturation_pos | apply init_speed_nonneg | lra]. }
    nra.
Qed.

(** Where contraction turns into growth.  With a positive customer count
    every target up to 48 percent projects fewer coin users than today,
    and every target from 49 percent on projects more. *)
Theorem contraction_threshold (h : History) (fit : Fit) (t : R) (n : Z) :
  (0 < n)%Z ->
  (t <= 48 -> incremental_coin_users (init h fit) t n < 0) /\
  (49 <= t -> 0 < incremental_coin_users (init h fit) t n).
Proof.
  intros. apply delta_sign_by_target; assumption.
Qed.

Lemma contraction_threshold_witness :
  (0 < 20000)%Z /\ incremental_coin_users documented 45 20000 < 0
  /\ 0 < incremental_coin_users documented 50 20000.
Proof.
  assert (Hn : (0 < 20000)%Z) by lia.
  pose proof (contraction_threshold no_history no_fit 45 20000 Hn) as [H1 _].
  pose proof (contraction_threshold no_history no_fit 50 20000 Hn) as [_ H2].
  split; [exact Hn |]. split; [apply H1; lra | apply H2; lra].
Defined.

Lemma round_exact (z : Z) (n : nat) : Py.round (IZR z / 10 ^ n) n = IZR z / 10 ^ n.
Proof.
  unfold Py.round. pose proof (pow10_pos n) as Hp.
  replace (IZR z / 10 ^ n * 10 ^ n) with (IZR z) by (field; lra).
  rewrite rint_IZR. reflexivity.
Qed.

Lemma init_volume_discount_pos (h : History) (fit : Fit) (t : R) :
  0 < volume_discount (init h fit) t.
Proof.
  destruct (caps_inactive_under_saturation h fit t) as [_ [Hv _]]. rewrite Hv.
  pose proof (init_effective_rate_lt h fit t). lra.
Qed.

(** What the page shows for a contraction.  With a positive customer
    count, a redemption frequency between 0 and 9 and any target up to
    48 percent, the returned dictionary holds a return on investment of
    0, an infinite payback period and a non-positive number of new coin
    users. *)
Theorem contraction_report (h : History) (fit : Fit) (t : R) (n : Z) :
  (0 < n)%Z -> t <= 48 -> 0 <= avg_freq_zc (init h fit) <= 9 ->
  exists (m : gmap string value) (z : Z),
    calculate_impact (init h fit) t n = Py.Ok m /\
    m !! "roi_percentage" = Some (VInt 0) /\
    m !! "payback_period_months" = Some VInf /\
    m !! "new_coin_users" = Some (VInt z) /\ (z <= 0)%Z.
Proof.
  intros Hn Ht Hf.
  destruct (delta_sign_by_target h fit t n Hn) as [Hc _]. specialize (Hc Ht).
  destruct (net_impact_follows_delta h fit t n Hf) as [_ [Hneg _]]. specialize (Hneg Hc).
  assert (Hcost : monthly_cost (init h fit) t n <= 0).
  { rewrite monthly_cost_eq. pose proof (init_volume_discount_pos h fit t) as Hv.
    assert (0 <= 30 * avg_freq_zc (init h fit) * volume_discount (init h fit) t).
    { apply Rmult_le_pos; [lra | lra]. }
    nra. }
  assert (Hroi : roi_value (init h fit) t n = VInt 0).
  { unfold roi_value.
    destruct (Rgt_dec (monthly_cost (init h fit) t n) 0) as [H1 | _]; [lra | reflexivity]. }
  assert (Hpay : payback_value (init h fit) t n = VInf).
  { unfold payback_value.
    destruct (Rgt_dec (net_monthly_impact (init h fit) t n) 0) as [H2 | _];
      [lra | reflexivity]. }
  eexists _, _. split; [apply init_returns |].
  rewrite lookup_roi_percentage, lookup_payback_period_months, lookup_new_coin_users.
  rewrite Hroi, Hpay. repeat split.
  apply le_IZR, int_nonpos. lra.
Qed.

Lemma contraction_report_witness :
  (0 < 20000)%Z /\ 40 <= 48 /\ 0 <= avg_freq_zc documented <= 9 /\
  exists (m : gmap string value) (z : Z),
    calculate_impact documented 40 20000 = Py.Ok m /\
    m !! "roi_percentage" = Some (VInt 0) /\
    m !! "payback_period_months" = Some VInf /\
    m !! "new_coin_users" = Some (VInt z) /\ (z <= 0)%Z.
Proof.
  assert (Hn : (0 < 20000)%Z) by lia.
  assert (Ht : 40 <= 48) by lra.
  assert (Hf : 0 <= avg_freq_zc (init no_history no_fit) <= 9) by (simpl; lra).
  split; [exact Hn |]. split; [exact Ht |]. split; [exact Hf |].
  exact (contraction_report no_history no_fit 40 20000 Hn Ht Hf).
Defined.

(** The confidence bounds are in order whenever the monthly incremental
    revenue is not negative: lower <= revenue <= upper, as reported. *)
Theorem confidence_bounds_ordered (self : AdvancedImpactCalculator) (t : R) (n : Z) :
  current_avg_monthly_spend_non_zc self <> 0%Z ->
  0 <= monthly_incremental_revenue self t n ->
  exists (m : gmap string value) (lo r up : R),
    calculate_impact self t n = Py.Ok m /\
    m !! "revenue_confidence_lower" = Some (VFloat lo) /\
    m !! "incremental_revenue_monthly" = Some (VFloat r) /\
    m !! "revenue_confidence_upper" = Some (VFloat up) /\
    lo <= r <= up.
Proof.
  intros Hbase Hrev.
  eexists _, _, _, _. split; [apply calculate_impact_returns, Hbase |].
  split; [apply lookup_revenue_confidence_lower |].
  split; [apply lookup_incremental_revenue_monthly |].
  split; [apply lookup_revenue_confidence_upper |].
  unfold revenue_std, z_score. split; apply round_mono; lra.
Qed.

Lemma confidence_bounds_ordered_witness :
  current_avg_monthly_spend_non_zc documented <> 0%Z /\
  0 <= monthly_incremental_revenue documented 50 20000 /\
  exists (m : gmap string value) (lo r up : R),
    calculate_impact documented 50 20000 = Py.Ok m /\
    m !! "revenue_confidence_lower" = Some (VFloat lo) /\
    m !! "incremental_revenue_monthly" = Some (VFloat r) /\
    m !! "revenue_confidence_upper" = Some (VFloat up) /\
    lo <= r <= up.
Proof.
  assert (Hb : current_avg_monthly_spend_non_zc documented <> 0%Z) by discriminate.
  assert (Hr : 0 <= monthly_incremental_revenue documented 50 20000).
  { destruct monthly_figures_50 as [Hc Hn]. unfold net_monthly_impact in Hn. lra. }
  split; [exact Hb |]. split; [exact Hr |].
  exact (confidence_bounds_ordered documented 50 20000 Hb Hr).
Defined.

(** A finite payback period is never negative (redemption frequency
    between 0 and 9): the entry is either infinity or a non-negative
    number. *)
Theorem payback_nonnegative (h : History) (fit : Fit) (t : R) (n : Z) :
  0 <= avg_freq_zc (init h fit) <= 9 ->
  exists m : gmap string value,
    calculate_impact (init h fit) t n = Py.Ok m /\
    (m !! "payback_period_months" = Some VInf \/
     exists r : R, m !! "payback_period_months" = Some (VFloat r) /\ 0 <= r).
Proof.
  intros Hf. eexists. split; [apply init_returns |].
  rewrite lookup_payback_period_months. unfold payback_value.
  destruct (Rgt_dec (net_monthly_impact (init h fit) t n) 0) as [Hnet | _];
    [| left; reflexivity].
  right. eexists. split; [reflexivity |].
  rewrite <- (round_0 1). apply round_mono.
  pose proof (init_margin_pos h fit t Hf) as Hm.
  pose proof (init_volume_discount_pos h fit t) as Hv.
  assert (Hinc : 0 < incremental_coin_users (init h fit) t n).
  { rewrite net_monthly_impact_eq in Hnet.
    set (d := incremental_coin_users (init h fit) t n) in *.
    set (mg := incremental_spend_per_user (init h fit) t
               - 30 * avg_freq_zc (init h fit) * volume_discount (init h fit) t) in *.
    nra. }
  assert (Hcost : 0 <= monthly_cost (init h fit) t n).
  { rewrite monthly_cost_eq.
    assert (0 <= 30 * avg_freq_zc (init h fit) * volume_discount (init h fit) t).
    { apply Rmult_le_pos; [lra | lra]. }
    nra. }
  apply Rmult_le_pos; [exact Hcost |]. left. apply Rinv_0_lt_compat. lra.
Qed.

Lemma payback_nonnegative_witness :
  0 <= avg_freq_zc documented <= 9 /\
  exists m : gmap string value,
    calculate_impact documented 50 20000 = Py.Ok m /\
    (m !! "payback_period_months" = Some VInf \/
     exists r : R, m !! "payback_period_months" = Some (VFloat r) /\ 0 <= r).
Proof.
  assert (Hf : 0 <= avg_freq_zc (init no_history no_fit) <= 9) by (simpl; lra).
  split; [exact Hf |].
  exact (payback_nonnegative no_history no_fit 50 20000 Hf).
Defined.

(** ** The annual figure *)

Lemma growth_curve_sum (r : R) :
  0 <= r ->
  sum (map (fun k => _monthly_growth_curve k r) (seq 0 12))
  = (11 / 2 + / (1 + exp (24 / 5))) * r.
Proof.
  intros Hr.
  pose proof (growth_curve_mirror 0 r Hr ltac:(lia)) as S0.
  pose proof (growth_curve_mirror 1 r Hr ltac:(lia)) as S1.
  pose proof (growth_curve_mirror 2 r Hr ltac:(lia)) as S2.
  pose proof (growth_curve_mirror 3 r Hr ltac:(lia)) as S3.
  pose proof (growth_curve_mirror 4 r Hr ltac:(lia)) as S4.
  pose proof (growth_curve_mirror 5 r Hr ltac:(lia)) as S5.
  assert (G0 : _monthly_growth_curve 0 r = / (1 + exp (24 / 5)) * r).
  { rewrite growth_curve_logistic by exact Hr.
    replace (- (8 / 10) * (INR 0 - 6)) with (24 / 5) by (simpl; lra).
    unfold Rdiv. ring. }
  change (6 - 0)%nat with 6%nat in S0. change (6 + 0)%nat with 6%nat in S0.
  change (6 - 1)%nat with 5%nat in S1. change (6 + 1)%nat with 7%nat in S1.
  change (6 - 2)%nat with 4%nat in S2. change (6 + 2)%nat with 8%nat in S2.
  change (6 - 3)%nat with 3%nat in S3. change (6 + 3)%nat with 9%nat in S3.
  change (6 - 4)%nat with 2%nat in S4. change (6 + 4)%nat with 10%nat in S4.
  change (6 - 5)%nat with 1%nat in S5. change (6 + 5)%nat with 11%nat in S5.
  change (seq 0 12) with [0; 1; 2; 3; 4; 5; 6; 7; 8; 9; 10; 11]%nat.
  cbn [map]. rewrite !sum_cons. unfold sum at 1. cbn [fold_left].
  lra.
Qed.

Lemma sum_scale (c : R) (xs : list R) : sum (map (Rmult c) xs) = c * sum xs.
Proof.
  induction xs as [| x xs IH]; cbn [map].
  - unfold sum. simpl. lra.
  - rewrite !sum_cons, IH. lra.
Qed.

Lemma annual_impact_factor (self : AdvancedImpactCalculator) (t : R) (n : Z) :
  0 <= effective_rate self t ->
  annual_impact self t n
  = (11 / 2 + / (1 + exp (24 / 5)))
    * (target_coin_users self t n
       * (incremental_spend_per_user self t
          - 30 * avg_freq_zc self * volume_discount self t)) /\
  11 / 2 < 11 / 2 + / (1 + exp (24 / 5)) < 554 / 100.
Proof.
  intros He. split.
  - unfold annual_impact.
    rewrite (map_ext (month_impact self t n)
               (fun k => eligible_customers n
                         * (incremental_spend_per_user self t
                            - 30 * avg_freq_zc self * volume_discount self t)
                         * _monthly_growth_curve k (effective_rate self t))).
    + rewrite <- (map_map (fun k => _monthly_growth_curve k (effective_rate self t))
                    (Rmult (eligible_customers n
                            * (incremental_spend_per_user self t
                               - 30 * avg_freq_zc self * volume_discount self t)))).
      rewrite sum_scale, growth_curve_sum by exact He.
      unfold target_coin_users. ring.
    + intros k. rewrite month_impact_factored. ring.
  - assert (H4 : 25 < exp (24 / 5)).
    { eapply Rlt_trans; [apply exp_4_lower |]. apply exp_increasing. lra. }
    assert (Hi : 0 < / (1 + exp (24 / 5)) < / 25).
    { split; [apply Rinv_0_lt_compat; lra |].
      apply Rinv_lt_contravar; [nra | lra]. }
    lra.
Qed.

(** The annual impact in closed form.  For a non-negative effective
    rate the twelve monthly terms add up to a fixed multiple, between
    5.5 and 5.54, of one month at the full target: target users times
    the per-user margin. *)
Theorem annual_impact_closed_form (self : AdvancedImpactCalculator) (t : R) (n : Z) :
  0 <= effective_rate self t ->
  annual_impact self t n
  = (11 / 2 + / (1 + exp (24 / 5)))
    * (target_coin_users self t n
       * (incremental_spend_per_user self t
          - 30 * avg_freq_zc self * volume_discount self t)) /\
  11 / 2 < 11 / 2 + / (1 + exp (24 / 5)) < 554 / 100.
Proof.
  intros. apply annual_impact_factor; assumption.
Qed.

Lemma annual_impact_closed_form_witness :
  0 <= effective_rate documented 40 /\
  annual_impact documented 40 20000
  = (11 / 2 + / (1 + exp (24 / 5)))
    * (target_coin_users documented 40 20000
       * (incremental_spend_per_user documented 40
          - 30 * avg_freq_zc documented * volume_discount documented 40)).
Proof.
  assert (He : 0 <= effective_rate documented 40).
  { pose proof (effective_rate_40 no_history no_fit) as H. fold documented in H. lra. }
  split; [exact He |].
  exact (proj1 (annual_impact_closed_form documented 40 20000 He)).
Defined.

(** The monthly and the annual figure disagree in sign for every
    contraction.  With a positive customer count, a redemption frequency
    between 0 and 9 and a target above 0 and up to 48 percent, the net
    monthly impact is negative while the annual impact is positive. *)
Theorem monthly_annual_asymmetry (h : History) (fit : Fit) (t : R) (n : Z) :
  (0 < n)%Z -> 0 < t <= 48 -> 0 <= avg_freq_zc (init h fit) <= 9 ->
  net_monthly_impact (init h fit) t n < 0 < annual_impact (init h fit) t n.
Proof.
  intros Hn [Ht0 Ht] Hf.
  destruct (delta_sign_by_target h fit t n Hn) as [Hc _]. specialize (Hc Ht).
  destruct (net_impact_follows_delta h fit t n Hf) as [_ [Hneg _]]. split; [apply Hneg, Hc |].
  assert (He : 0 < effective_rate (init h fit) t).
  { apply curve_pos; [apply init_saturation_pos | lra]. }
  destruct (annual_impact_factor (init h fit) t n) as [-> [Hk _]]; [lra |].
  pose proof (init_margin_pos h fit t Hf) as Hm.
  apply Rmult_lt_0_compat; [lra |]. apply Rmult_lt_0_compat; [| lra].
  unfold target_coin_users, eligible_customers. apply IZR_lt in Hn.
  apply Rmult_lt_0_compat; lra.
Qed.

Lemma monthly_annual_asymmetry_witness :
  (0 < 20000)%Z /\ 0 < 40 <= 48 /\ 0 <= avg_freq_zc documented <= 9 /\
  net_monthly_impact documented 40 20000 < 0 < annual_impact documented 40 20000.
Proof.
  assert (Hn : (0 < 20000)%Z) by lia.
  assert (Ht : 0 < 40 <= 48) by lra.
  assert (Hf : 0 <= avg_freq_zc (init no_history no_fit) <= 9) by (simpl; lra).
  split; [exact Hn |]. split; [exact Ht |]. split; [exact Hf |].
  exact (monthly_annual_asymmetry no_history no_fit 40 20000 Hn Ht Hf).
Defined.

(** ** Reported ranges *)

(** For a non-negative target the reported risk score lies between 10
    and 30.3, and the reported lifetime-value increase between 1369.72
    and 1670.40. *)
Theorem reported_ranges (h : History) (fit : Fit) (t : R) (n : Z) :
  0 <= t ->
  exists (m : gmap string value) (risk ltv : R),
    calculate_impact (init h fit) t n = Py.Ok m /\
    m !! "risk_score" = Some (VFloat risk) /\ 10 <= risk <= 303 / 10 /\
    m !! "customer_ltv_increase" = Some (VFloat ltv) /\
    136972 / 100 <= ltv <= 167040 / 100.
Proof.
  intros Ht.
  pose proof (init_effective_rate_lt h fit t) as Hlt.
  pose proof (init_effective_rate_nonneg h fit t Ht) as Hge.
  destruct (caps_inactive_under_saturation h fit t) as [Hi [_ Hr]].
  assert (Hrisk : 10 <= Py.round (risk_factor (init h fit) t * 100) 1 <= 303 / 10).
  { split.
    - replace 10 with (IZR 100 / 10 ^ 1) at 1 by (simpl; lra).
      rewrite <- (round_exact 100 1). apply round_mono. simpl. lra.
    - pose proof (round_near 1 (risk_factor (init h fit) t * 100)) as Hn.
      simpl in Hn. lra. }
  assert (Hltv : 136972 / 100
                 <= Py.round (incremental_spend_per_user (init h fit) t * (48 / 10)) 2
                 <= 167040 / 100).
  { unfold incremental_spend_per_user. rewrite Hi.
    change (IZR (spend_lift_per_user (init h fit))) with 464.
    split.
    - replace (136972 / 100) with (IZR 136972 / 10 ^ 2) by (simpl; lra).
      rewrite <- (round_exact 136972 2). apply round_mono. simpl. lra.
    - replace (167040 / 100) with (IZR 167040 / 10 ^ 2) by (simpl; lra).
      rewrite <- (round_exact 167040 2). apply round_mono. simpl. lra. }
  eexists _, _, _. split; [apply init_returns |].
  split; [unfold results_of; apply lookup_insert_eq |].
  split; [exact Hrisk |].
  split; [unfold results_of; repeat (rewrite lookup_insert_ne by discriminate);
          apply lookup_insert_eq |].
  exact Hltv.
Qed.

Lemma reported_ranges_witness :
  0 <= 40 /\
  exists (m : gmap string value) (risk ltv : R),
    calculate_impact documented 40 20000 = Py.Ok m /\
    m !! "risk_score" = Some (VFloat risk) /\ 10 <= risk <= 303 / 10 /\
    m !! "customer_ltv_increase" = Some (VFloat ltv) /\
    136972 / 100 <= ltv <= 167040 / 100.
Proof.
  assert (Ht : 0 <= 40) by lra.
  split; [exact Ht |].
  exact (reported_ranges no_history no_fit 40 20000 Ht).
Defined.

(** The returned dictionary has the sixteen documented keys and no
    other: a lookup succeeds exactly on those. *)
Theorem result_keys_exact (h : History) (fit : Fit) (t : R) (n : Z) :
  exists m : gmap string value,
    calculate_impact (init h fit) t n = Py.Ok m /\
    forall k : string, is_Some (m !! k) <-> In k result_keys.
Proof.
  eexists. split; [apply init_returns |].
  intros k. unfold results_of, result_keys. split.
  - intros Hk.
    repeat match type of Hk with
           | is_Some (<[?key := _]> _ !! k) =>
               destruct (String.string_dec key k) as [<- | Hne];
               [simpl; tauto | rewrite lookup_insert_ne in Hk by exact Hne; clear Hne]
           end.
    rewrite lookup_empty in Hk. destruct Hk as [v Hv]. discriminate.
  - intros Hin. simpl in Hin.
    repeat (destruct Hin as [<- | Hin];
            [repeat (rewrite lookup_insert_ne by discriminate);
             rewrite lookup_insert_eq; eexists; reflexivity |]).
    destruct Hin.
Qed.

(** ** The dashboard charts *)

(** The two series of the advanced branch, as maps over the months. *)
Lemma chart_series_maps (calculator : AdvancedImpactCalculator)
    (results : gmap string value) (a : Z) (t n : Z) :
  results !! "avg_monthly_amount_per_user" = Some (VInt a) ->
  chart_series calculator results t n
  = Some (map (fun month => _monthly_growth_curve (month - 1) (IZR t / 100) * 100)
              (seq 1 12),
          map (fun month =>
                 IZR n * (8 / 10) * _monthly_growth_curve (month - 1) (IZR t / 100)
                 * (IZR a - 624))
              (seq 1 12)).
Proof.
  intros Hk. unfold chart_series. cbn [seq fold_left].
  rewrite Hk. reflexivity.
Qed.

Lemma nth_map_seq (f : nat -> R) (start len i : nat) (d : R) :
  (i < len)%nat -> nth i (map f (seq start len)) d = f (start + i)%nat.
Proof.
  intros Hi. rewrite (nth_indep _ d (f 0%nat)) by (rewrite length_map, length_seq; exact Hi).
  rewrite map_nth, seq_nth by exact Hi. reflexivity.
Qed.

Lemma lookup_avg_monthly_amount (self : AdvancedImpactCalculator) (t : R) (n : Z)
    (roi payback : value) :
  results_of self t n roi payback !! "avg_monthly_amount_per_user"
  = Some (VInt (current_avg_monthly_spend_zc self)).
Proof. lookup_key. Qed.

(** The charts always get their twelve points: the key the loop reads is
    present in every result.  For a non-negative target the adoption
    series (in percent) starts at or above 0, never falls from one month
    to the next and stays at or below the raw target; with a
    non-negative customer count no revenue bar is negative. *)
Theorem chart_series_shape (h : History) (fit : Fit) (t n : Z) :
  (0 <= t)%Z -> (0 <= n)%Z ->
  exists (m : gmap string value) (rates bars : list R),
    calculate_impact (init h fit) (IZR t) n = Py.Ok m /\
    chart_series (init h fit) m t n = Some (rates, bars) /\
    length rates = 12%nat /\ length bars = 12%nat /\
    (forall i j : nat, (i <= j < 12)%nat ->
       0 <= nth i rates 0 /\ nth i rates 0 <= nth j rates 0 /\ nth j rates 0 <= IZR t) /\
    Forall (fun b => 0 <= b) bars.
Proof.
  intros Ht Hn. apply IZR_le in Ht. apply IZR_le in Hn.
  assert (Hr : 0 <= IZR t / 100) by lra.
  eexists _, _, _. split; [apply init_returns |].
  split; [apply (chart_series_maps _ _ 1088); apply lookup_avg_monthly_amount |].
  split; [rewrite length_map, length_seq; reflexivity |].
  split; [rewrite length_map, length_seq; reflexivity |].
  split.
  - intros i j [Hij Hj].
    rewrite !nth_map_seq by lia.
    replace (1 + i - 1)%nat with i by lia. replace (1 + j - 1)%nat with j by lia.
    pose proof (growth_curve_nonneg i (IZR t / 100) Hr) as H0.
    pose proof (growth_curve_le_later i j (IZR t / 100) Hr Hij) as Hm.
    assert (Hle : _monthly_growth_curve j (IZR t / 100) <= IZR t / 100).
    { unfold _monthly_growth_curve. apply Rmin_r. }
    repeat split; lra.
  - apply List.Forall_forall. intros b Hb. apply in_map_iff in Hb.
    destruct Hb as [k [<- _]].
    pose proof (growth_curve_nonneg (k - 1) (IZR t / 100) Hr) as H0.
    apply Rmult_le_pos; [apply Rmult_le_pos; [lra | exact H0] | lra].
Qed.

Lemma chart_series_shape_witness :
  (0 <= 40)%Z /\ (0 <= 20000)%Z /\
  exists (m : gmap string value) (rates bars : list R),
    calculate_impact documented (IZR 40) 20000 = Py.Ok m /\
    chart_series documented m 40 20000 = Some (rates, bars) /\
    length rates = 12%nat /\ length bars = 12%nat.
Proof.
  assert (Ht : (0 <= 40)%Z) by lia. assert (Hn : (0 <= 20000)%Z) by lia.
  split; [exact Ht |]. split; [exact Hn |].
  destruct (chart_series_shape no_history no_fit 40 20000 Ht Hn)
    as (m & rates & bars & H1 & H2 & H3 & H4 & _).
  exists m, rates, bars. repeat split; assumption.
Defined.

Lemma slider_targets_range (t : Z) : In t slider_targets -> (10 <= t <= 60)%Z.
Proof.
  unfold slider_targets. cbn [seq map]. intros Hin.
  repeat (destruct Hin as [<- | Hin]; [lia |]). destruct Hin.
Qed.

(** The charts contradict the headline for every slider position up to
    45 percent: with a positive customer count the reported incremental
    revenue is at most 0 (the projection is a contraction) while every
    bar of the monthly revenue chart is strictly positive, the chart
    being drawn from the raw target and the full spend lift. *)
Theorem chart_contradicts_headline (h : History) (fit : Fit) (t n : Z) :
  In t slider_targets -> (t <= 45)%Z -> (0 < n)%Z ->
  exists (m : gmap string value) (r : R) (rates bars : list R),
    calculate_impact (init h fit) (IZR t) n = Py.Ok m /\
    m !! "incremental_revenue_monthly" = Some (VFloat r) /\ r <= 0 /\
    monthly_incremental_revenue (init h fit) (IZR t) n < 0 /\
    chart_series (init h fit) m t n = Some (rates, bars) /\
    Forall (fun b => 0 < b) bars.
Proof.
  intros Hin Ht Hn. apply slider_targets_range in Hin.
  assert (Ht' : IZR t <= 48).
  { apply IZR_le in Ht. lra. }
  assert (Ht0 : 0 < IZR t / 100).
  { assert (10 <= IZR t) by (apply IZR_le; lia). lra. }
  destruct (delta_sign_by_target h fit (IZR t) n Hn) as [Hc _]. specialize (Hc Ht').
  assert (Hrev : monthly_incremental_revenue (init h fit) (IZR t) n < 0).
  { rewrite monthly_incremental_revenue_eq. unfold incremental_spend_per_user.
    change (IZR (spend_lift_per_user (init h fit))) with 464.
    pose proof (incrementality_bounds (effective_rate (init h fit) (IZR t))) as Hi.
    set (d := incremental_coin_users (init h fit) (IZR t) n) in *.
    set (i := _calculate_incrementality (effective_rate (init h fit) (IZR t))) in *.
    assert (0 < 464 * i) by lra. nra. }
  eexists _, _, _, _. split; [apply init_returns |].
  split; [apply lookup_incremental_revenue_monthly |].
  split; [apply round_nonpos; lra |]. split; [exact Hrev |].
  split; [apply (chart_series_maps _ _ 1088); apply lookup_avg_monthly_amount |].
  apply List.Forall_forall. intros b Hb. apply in_map_iff in Hb.
  destruct Hb as [k [<- _]].
  pose proof (growth_curve_strict_bounds (k - 1) (IZR t / 100) Ht0) as [Hg _].
  apply IZR_lt in Hn.
  apply Rmult_lt_0_compat; [apply Rmult_lt_0_compat; [lra | exact Hg] | lra].
Qed.

Lemma chart_contradicts_headline_witness :
  In 40%Z slider_targets /\ (40 <= 45)%Z /\ (0 < 20000)%Z /\
  monthly_incremental_revenue documented (IZR 40) 20000 < 0.
Proof.
  assert (Hin : In 40%Z slider_targets).
  { unfold slider_targets. cbn [seq map]. simpl. tauto. }
  assert (Ht : (40 <= 45)%Z) by lia. assert (Hn : (0 < 20000)%Z) by lia.
  split; [exact Hin |]. split; [exact Ht |]. split; [exact Hn |].
  destruct (chart_contradicts_headline no_history no_fit 40 20000 Hin Ht Hn)
    as (m & r & rates & bars & _ & _ & _ & Hrev & _).
  exact Hrev.
Defined.

(** ** The fallback projection *)

Lemma simple_projection_returns (t n : Z) :
  simple_projection t n
  = Py.Ok
      {| sp_current_users := IZR n * (8 / 10) * (21 / 100);
         sp_target_users := IZR n * (8 / 10) * (IZR t / 100);
         sp_incremental_users :=
           IZR n * (8 / 10) * (IZR t / 100) - IZR n * (8 / 10) * (21 / 100);
         sp_incremental_revenue :=
           (IZR n * (8 / 10) * (IZR t / 100) - IZR n * (8 / 10) * (21 / 100))
           * IZR (1088 - 624);
         sp_total_cost := IZR n * (8 / 10) * (IZR t / 100) * IZR (30 * 7);
         sp_incremental_cost :=
           if Rgt_dec (IZR n * (8 / 10) * (IZR t / 100) - IZR n * (8 / 10) * (21 / 100)) 0
           then (IZR n * (8 / 10) * (IZR t / 100) - IZR n * (8 / 10) * (21 / 100))
                * IZR (30 * 7)
           else 0;
         sp_net_impact :=
           (IZR n * (8 / 10) * (IZR t / 100) - IZR n * (8 / 10) * (21 / 100))
           * IZR (1088 - 624)
           - (if Rgt_dec (IZR n * (8 / 10) * (IZR t / 100)
                          - IZR n * (8 / 10) * (21 / 100)) 0
              then (IZR n * (8 / 10) * (IZR t / 100) - IZR n * (8 / 10) * (21 / 100))
                   * IZR (30 * 7)
              else 0);
         sp_annual :=
           ((IZR n * (8 / 10) * (IZR t / 100) - IZR n * (8 / 10) * (21 / 100))
            * IZR (1088 - 624)
            - (if Rgt_dec (IZR n * (8 / 10) * (IZR t / 100)
                           - IZR n * (8 / 10) * (21 / 100)) 0
               then (IZR n * (8 / 10) * (IZR t / 100) - IZR n * (8 / 10) * (21 / 100))
                    * IZR (30 * 7)
               else 0)) * 12;
         sp_delta :=
           if Rgt_dec (IZR n * (8 / 10) * (21 / 100)) 0
           then Number ((IZR n * (8 / 10) * (IZR t / 100) - IZR n * (8 / 10) * (21 / 100))
                        / (IZR n * (8 / 10) * (21 / 100)) * 100)
           else NA;
         sp_roi :=
           if Rgt_dec (IZR n * (8 / 10) * (IZR t / 100) * IZR (30 * 7)) 0
           then Number
                  (Rabs (((IZR n * (8 / 10) * (IZR t / 100) - IZR n * (8 / 10) * (21 / 100))
                          * IZR (1088 - 624)
                          - (if Rgt_dec (IZR n * (8 / 10) * (IZR t / 100)
                                         - IZR n * (8 / 10) * (21 / 100)) 0
                             then (IZR n * (8 / 10) * (IZR t / 100)
                                   - IZR n * (8 / 10) * (21 / 100)) * IZR (30 * 7)
                             else 0)) * 12)
                   / (IZR n * (8 / 10) * (IZR t / 100) * IZR (30 * 7) * 12) * 100)
           else NA |}.
Proof.
  unfold simple_projection.
  destruct (Rgt_dec (IZR n * (8 / 10) * (21 / 100)) 0) as [Hc | Hc];
    destruct (Rgt_dec (IZR n * (8 / 10) * (IZR t / 100) * IZR (30 * 7)) 0) as [Ht | Ht];
    rewrite ?truediv_ok by lra; reflexivity.
Qed.

(** The fallback never divides by zero: the percentage delta is "N/A"
    exactly when the customer count is not positive, the ROI is "N/A"
    exactly when the target user count is not positive, and every other
    input gets both figures. *)
Theorem fallback_guards (t n : Z) :
  exists p : SimpleProjection,
    simple_projection t n = Py.Ok p /\
    (sp_delta p = NA <-> (n <= 0)%Z) /\
    (sp_roi p = NA <-> sp_target_users p <= 0).
Proof.
  eexists. split; [apply simple_projection_returns |].
  cbn [sp_delta sp_roi sp_target_users].
  change (IZR (30 * 7)) with 210. split.
  - destruct (Rgt_dec (IZR n * (8 / 10) * (21 / 100)) 0) as [Hc | Hc];
      split; intros H.
    + discriminate.
    + apply IZR_le in H. lra.
    + apply le_IZR. lra.
    + reflexivity.
  - destruct (Rgt_dec (IZR n * (8 / 10) * (IZR t / 100) * 210) 0) as [Hc | Hc];
      split; intros H.
    + discriminate.
    + lra.
    + lra.
    + reflexivity.
Qed.

(** In the fallback the incremental cost is never negative (a
    contraction saves nothing), so the net impact is 254 per user gained
    and 464 per user lost; it has the sign of the user delta, and the
    annual figure is twelve times it. *)
Theorem fallback_net_impact (t n : Z) :
  exists p : SimpleProjection,
    simple_projection t n = Py.Ok p /\
    0 <= sp_incremental_cost p /\
    (0 < sp_incremental_users p -> sp_net_impact p = 254 * sp_incremental_users p) /\
    (sp_incremental_users p <= 0 -> sp_net_impact p = 464 * sp_incremental_users p) /\
    sp_annual p = 12 * sp_net_impact p.
Proof.
  eexists. split; [apply simple_projection_returns |].
  cbn [sp_incremental_cost sp_incremental_users sp_net_impact sp_annual].
  change (IZR (1088 - 624)) with 464. change (IZR (30 * 7)) with 210.
  destruct (Rgt_dec (IZR n * (8 / 10) * (IZR t / 100) - IZR n * (8 / 10) * (21 / 100)) 0);
    repeat split; try intros H; lra.
Qed.

(** The fallback ROI hides a loss: it is computed from the absolute
    value of the annual figure.  For a positive customer count and a
    target above 0 and below 21 percent the annual impact is negative
    and the ROI shown is positive. *)
Theorem fallback_roi_hides_loss (t n : Z) :
  (0 < n)%Z -> (0 < t < 21)%Z ->
  exists (p : SimpleProjection) (r : R),
    simple_projection t n = Py.Ok p /\
    sp_annual p < 0 /\ sp_roi p = Number r /\ 0 < r.
Proof.
  intros Hn [Ht0 Ht]. apply IZR_lt in Hn. apply IZR_lt in Ht0. apply IZR_lt in Ht.
  assert (Hinc : IZR n * (8 / 10) * (IZR t / 100) - IZR n * (8 / 10) * (21 / 100) < 0) by nra.
  assert (Htu : 0 < IZR n * (8 / 10) * (IZR t / 100) * IZR (30 * 7)).
  { change (IZR (30 * 7)) with 210. nra. }
  assert (Hann : (IZR n * (8 / 10) * (IZR t / 100) - IZR n * (8 / 10) * (21 / 100))
                 * IZR (1088 - 624) * 12 < 0).
  { change (IZR (1088 - 624)) with 464. nra. }
  pose proof (simple_projection_returns t n) as Hret.
  destruct (Rgt_dec (IZR n * (8 / 10) * (IZR t / 100) - IZR n * (8 / 10) * (21 / 100)) 0)
    as [Hpos | _]; [lra |].
  destruct (Rgt_dec (IZR n * (8 / 10) * (IZR t / 100) * IZR (30 * 7)) 0) as [_ | Hneg];
    [| lra].
  rewrite Rminus_0_r in Hret.
  eexists _, _. split; [exact Hret |].
  cbn [sp_annual sp_roi].
  split; [exact Hann |]. split; [reflexivity |].
  apply Rmult_lt_0_compat; [| lra].
  apply Rdiv_lt_0_compat; [| lra].
  apply Rabs_pos_lt. lra.
Qed.

Lemma fallback_roi_hides_loss_witness :
  (0 < 20000)%Z /\ (0 < 10 < 21)%Z /\
  exists (p : SimpleProjection) (r : R),
    simple_projection 10 20000 = Py.Ok p /\
    sp_annual p < 0 /\ sp_roi p = Number r /\ 0 < r.
Proof.
  assert (Hn : (0 < 20000)%Z) by lia. assert (Ht : (0 < 10 < 21)%Z) by lia.
  split; [exact Hn |]. split; [exact Ht |].
  exact (fallback_roi_hides_loss 10 20000 Hn Ht).
Defined.

(** The two branches of the page disagree between 21 and 48 percent.
    For a positive customer count and an integer target above 21 and up
    to 48, the fallback projects growth (more users, positive net
    impact) where the calculator projects a contraction (fewer users,
    and a negative net impact for a redemption frequency between 0 and
    9); the fallback's target user count is never below the
    calculator's. *)
Theorem branches_disagree (h : History) (fit : Fit) (t n : Z) :
  (0 < n)%Z -> (21 < t <= 48)%Z -> 0 <= avg_freq_zc (init h fit) <= 9 ->
  exists p : SimpleProjection,
    simple_projection t n = Py.Ok p /\
    0 < sp_incremental_users p /\ 0 < sp_net_impact p /\
    incremental_coin_users (init h fit) (IZR t) n < 0 /\
    net_monthly_impact (init h fit) (IZR t) n < 0 /\
    sp_current_users p = current_coin_users n /\
    target_coin_users (init h fit) (IZR t) n <= sp_target_users p.
Proof.
  intros Hn [Ht1 Ht2] Hf.
  destruct (delta_sign_by_target h fit (IZR t) n Hn) as [Hc _].
  assert (Hc' : incremental_coin_users (init h fit) (IZR t) n < 0).
  { apply Hc. apply IZR_le in Ht2. lra. }
  destruct (net_impact_follows_delta h fit (IZR t) n Hf) as [_ [Hneg _]].
  apply IZR_lt in Hn. apply IZR_lt in Ht1.
  assert (Hinc : 0 < IZR n * (8 / 10) * (IZR t / 100) - IZR n * (8 / 10) * (21 / 100)) by nra.
  pose proof (simple_projection_returns t n) as Hret.
  destruct (Rgt_dec (IZR n * (8 / 10) * (IZR t / 100) - IZR n * (8 / 10) * (21 / 100)) 0)
    as [_ | Hno]; [| lra].
  eexists. split; [exact Hret |].
  cbn [sp_incremental_users sp_net_impact sp_current_users sp_target_users].
  change (IZR (1088 - 624)) with 464. change (IZR (30 * 7)) with 210.
  split; [exact Hinc |]. split; [lra |]. split; [exact Hc' |].
  split; [apply Hneg, Hc' |]. split.
  - unfold current_coin_users, eligible_customers, current_rate. reflexivity.
  - unfold target_coin_users, eligible_customers.
    pose proof (curve_le_target (init h fit) (IZR t / 100)) as Hle.
    unfold effective_rate. nra.
Qed.

Lemma branches_disagree_witness :
  (0 < 20000)%Z /\ (21 < 40 <= 48)%Z /\ 0 <= avg_freq_zc documented <= 9 /\
  exists p : SimpleProjection,
    simple_projection 40 20000 = Py.Ok p /\
    0 < sp_incremental_users p /\
    incremental_coin_users documented (IZR 40) 20000 < 0.
Proof.
  assert (Hn : (0 < 20000)%Z) by lia. assert (Ht : (21 < 40 <= 48)%Z) by lia.
  assert (Hf : 0 <= avg_freq_zc (init no_history no_fit) <= 9) by (simpl; lra).
  split; [exact Hn |]. split; [exact Ht |]. split; [exact Hf |].
  destruct (branches_disagree no_history no_fit 40 20000 Hn Ht Hf)
    as (p & H1 & H2 & _ & H3 & _).
  exists p. split; [exact H1 |]. split; [exact H2 | exact H3].
Defined.

(** ** Consistency of the reported figures *)

Lemma int_sub_close (a b : R) :
  0 <= a -> 0 <= b ->
  (Py.int a - Py.int b - 1 <= Py.int (a - b) <= Py.int a - Py.int b + 1)%Z.
Proof.
  intros Ha Hb. unfold Py.int.
  destruct (Rle_dec 0 a) as [_ | Hna]; [| contradiction].
  destruct (Rle_dec 0 b) as [_ | Hnb]; [| contradiction].
  destruct (floor_spec a) as [A1 A2]. destruct (floor_spec b) as [B1 B2].
  destruct (Rle_dec 0 (a - b)) as [Hd | Hd].
  - destruct (floor_spec (a - b)) as [D1 D2]. split.
    + assert (H : (Py.floor a - Py.floor b - 2 < Py.floor (a - b))%Z); [| lia].
      apply lt_IZR. rewrite !minus_IZR. lra.
    + assert (H : (Py.floor (a - b) < Py.floor a - Py.floor b + 1)%Z); [| lia].
      apply lt_IZR. rewrite plus_IZR, minus_IZR. lra.
  - destruct (floor_spec (- (a - b))) as [D1 D2]. split.
    + assert (H : (Py.floor a - Py.floor b - 1 < - Py.floor (- (a - b)) + 1)%Z); [| lia].
      apply lt_IZR. rewrite plus_IZR, opp_IZR, !minus_IZR. lra.
    + assert (H : (- Py.floor (- (a - b)) < Py.floor a - Py.floor b + 2)%Z); [| lia].
      apply lt_IZR. rewrite plus_IZR, opp_IZR, minus_IZR. lra.
Qed.

(** The three reported user counts agree up to truncation: for a
    non-negative target and customer count, [new_coin_users] differs
    from [target_coin_users - current_coin_users] by at most 1. *)
Theorem reported_user_counts_consistent (h : History) (fit : Fit) (t : R) (n : Z) :
  0 <= t -> (0 <= n)%Z ->
  exists (m : gmap string value) (cur tgt new : Z),
    calculate_impact (init h fit) t n = Py.Ok m /\
    m !! "current_coin_users" = Some (VInt cur) /\
    m !! "target_coin_users" = Some (VInt tgt) /\
    m !! "new_coin_users" = Some (VInt new) /\
    (tgt - cur - 1 <= new <= tgt - cur + 1)%Z.
Proof.
  intros Ht Hn. apply IZR_le in Hn.
  pose proof (init_effective_rate_nonneg h fit t Ht) as He.
  eexists _, _, _, _. split; [apply init_returns |].
  split; [apply lookup_current_coin_users |].
  split; [apply lookup_target_coin_users |].
  split; [apply lookup_new_coin_users |].
  unfold incremental_coin_users. apply int_sub_close.
  - unfold target_coin_users, eligible_customers.
    apply Rmult_le_pos; [lra | exact He].
  - unfold current_coin_users, eligible_customers, current_rate. lra.
Qed.

Lemma reported_user_counts_consistent_witness :
  0 <= 40 /\ (0 <= 20000)%Z /\
  exists (m : gmap string value) (cur tgt new : Z),
    calculate_impact documented 40 20000 = Py.Ok m /\
    m !! "current_coin_users" = Some (VInt cur) /\
    m !! "target_coin_users" = Some (VInt tgt) /\
    m !! "new_coin_users" = Some (VInt new) /\
    (tgt - cur - 1 <= new <= tgt - cur + 1)%Z.
Proof.
  assert (Ht : 0 <= 40) by lra. assert (Hn : (0 <= 20000)%Z) by lia.
  split; [exact Ht |]. split; [exact Hn |].
  exact (reported_user_counts_consistent no_history no_fit 40 20000 Ht Hn).
Defined.

Lemma init_annual_impact_nonneg (h : History) (fit : Fit) (t : R) (n : Z) :
  0 <= t -> (0 <= n)%Z -> 0 <= avg_freq_zc (init h fit) <= 9 ->
  0 <= annual_impact (init h fit) t n.
Proof.
  intros Ht Hn Hf. apply IZR_le in Hn.
  pose proof (init_effective_rate_nonneg h fit t Ht) as He.
  destruct (annual_impact_factor (init h fit) t n He) as [-> [Hk _]].
  pose proof (init_margin_pos h fit t Hf) as Hm.
  apply Rmult_le_pos; [lra |]. apply Rmult_le_pos; [| lra].
  unfold target_coin_users, eligible_customers.
  apply Rmult_le_pos; [lra | exact He].
Qed.

(** For a non-negative target and customer count and a redemption
    frequency between 0 and 9 the reported annual impact is not
    negative, the risk-adjusted figure lies between 0 and it, and the
    return on investment is either the integer 0 or a non-negative
    number. *)
Theorem annual_figures_nonnegative (h : History) (fit : Fit) (t : R) (n : Z) :
  0 <= t -> (0 <= n)%Z -> 0 <= avg_freq_zc (init h fit) <= 9 ->
  exists (m : gmap string value) (annual adjusted : R),
    calculate_impact (init h fit) t n = Py.Ok m /\
    m !! "annual_impact" = Some (VFloat annual) /\
    m !! "risk_adjusted_annual_impact" = Some (VFloat adjusted) /\
    0 <= adjusted <= annual /\
    (m !! "roi_percentage" = Some (VInt 0) \/
     exists r : R, m !! "roi_percentage" = Some (VFloat r) /\ 0 <= r).
Proof.
  intros Ht Hn Hf.
  pose proof (init_annual_impact_nonneg h fit t n Ht Hn Hf) as Ha.
  pose proof (init_effective_rate_lt h fit t) as Hlt.
  pose proof (init_effective_rate_nonneg h fit t Ht) as Hge.
  destruct (caps_inactive_under_saturation h fit t) as [_ [_ Hr]].
  assert (Hadj : 0 <= Py.round (annual_impact (init h fit) t n
                                * (1 - risk_factor (init h fit) t)) 2
                 <= Py.round (annual_impact (init h fit) t n) 2).
  { split.
    - rewrite <- (round_0 2). apply round_mono.
      apply Rmult_le_pos; [exact Ha | lra].
    - apply round_mono.
      set (a := annual_impact (init h fit) t n) in *.
      set (k := risk_factor (init h fit) t) in *. nra. }
  assert (Hroi : roi_value (init h fit) t n = VInt 0 \/
                 exists r : R, roi_value (init h fit) t n = VFloat r /\ 0 <= r).
  { unfold roi_value.
    destruct (Rgt_dec (monthly_cost (init h fit) t n) 0) as [Hc | _]; [| left; reflexivity].
    right. eexists. split; [reflexivity |].
    rewrite <- (round_0 2). apply round_mono.
    apply Rmult_le_pos; [| lra].
    apply Rmult_le_pos; [exact Ha |]. left. apply Rinv_0_lt_compat. lra. }
  eexists _, _, _. split; [apply init_returns |].
  split; [unfold results_of; repeat (rewrite lookup_insert_ne by discriminate);
          apply lookup_insert_eq |].
  split; [unfold results_of; repeat (rewrite lookup_insert_ne by discriminate);
          apply lookup_insert_eq |].
  split; [exact Hadj |].
  rewrite lookup_roi_percentage.
  destruct Hroi as [-> | [r [-> Hr0]]]; [left; reflexivity |].
  right. exists r. split; [reflexivity | exact Hr0].
Qed.

Lemma annual_figures_nonnegative_witness :
  0 <= 40 /\ (0 <= 20000)%Z /\ 0 <= avg_freq_zc documented <= 9 /\
  exists (m : gmap string value) (annual adjusted : R),
    calculate_impact documented 40 20000 = Py.Ok m /\
    m !! "annual_impact" = Some (VFloat annual) /\
    m !! "risk_adjusted_annual_impact" = Some (VFloat adjusted) /\
    0 <= adjusted <= annual.
Proof.
  assert (Ht : 0 <= 40) by lra. assert (Hn : (0 <= 20000)%Z) by lia.
  assert (Hf : 0 <= avg_freq_zc (init no_history no_fit) <= 9) by (simpl; lra).
  split; [exact Ht |]. split; [exact Hn |]. split; [exact Hf |].
  destruct (annual_figures_nonnegative no_history no_fit 40 20000 Ht Hn Hf)
    as (m & a & adj & H1 & H2 & H3 & H4 & _).
  exists m, a, adj. repeat split; try assumption; apply H4.
Defined.
